(** * Currency converter: a shallow embedding of [converter.js]

    The page holds one [CurrencyConverter] object.  Its fields and the
    DOM elements it reads and writes are gathered in one record, every
    method is a function on that record, and the two places where the
    code awaits the network split a method in the part that runs up to
    the [await] and the part that runs when the response arrives.

    Numbers are IEEE 754 binary64 values, as [spec_float] at precision
    53 and maximal exponent 1024.  Strings are sequences of code units
    below 256. *)

From Stdlib Require Import ZArith List String Ascii Bool Lia.
From Stdlib Require Import Floats.SpecFloat.
From Stdlib Require DecimalString.
From Stdlib Require Import Sorting.Permutation Sorting.Sorted.
Import ListNotations.

Local Open Scope string_scope.
Local Open Scope Z_scope.

(** ** The runtime: numbers *)

Module Number.

Definition prec : Z := 53.
Definition emax : Z := 1024.

Definition t : Type := spec_float.

Definition NaN : t := S754_nan.
Definition Infinity : t := S754_infinity false.
Definition zero : t := S754_zero false.

(** The number nearest to the integer [z] *)
Definition of_Z (z : Z) : t := binary_normalize prec emax z 0 false.

Definition one : t := of_Z 1.

(** [x / y] *)
Definition div (x y : t) : t := SFdiv prec emax x y.

(** [x < y], [x <= y] and [x > y]: false as soon as one side is NaN *)
Definition lt (x y : t) : bool := SFltb x y.
Definition le (x y : t) : bool := SFleb x y.
Definition gt (x y : t) : bool := SFltb y x.

Definition isNaN (x : t) : bool :=
  match x with S754_nan => true | _ => false end.

Definition isFinite (x : t) : bool :=
  match x with
  | S754_zero _ | S754_finite _ _ _ => true
  | S754_infinity _ | S754_nan => false
  end.

(** ToBoolean: NaN, +0 and -0 are falsy *)
Definition truthy (x : t) : bool :=
  match x with
  | S754_nan | S754_zero _ => false
  | S754_infinity _ | S754_finite _ _ _ => true
  end.

(** The number nearest to [m * 10^k], for [0 < m], with sign [s]
    (round to nearest, ties to even) *)
Definition of_decimal (s : bool) (m : Z) (k : Z) : t :=
  match m with
  | Z0 => S754_zero s
  | Zneg _ => S754_nan
  | Zpos p =>
      match k with
      | Zneg q =>
          let '(mz, ez, lz) :=
            SFdiv_core_binary prec emax (Zpos p) 0 (Z.pow_pos 10 q) 0 in
          binary_round_aux prec emax s mz ez lz
      | _ => binary_round prec emax s (Pos.mul p (Z.to_pos (10 ^ k))) 0
      end
  end.

End Number.

(** ** The runtime: strings

    A character is one code unit; the white space and line terminator
    code units below 256 are TAB, LF, VT, FF, CR, SP and NBSP. *)

Module Str.

Definition code (c : ascii) : Z := Z.of_nat (nat_of_ascii c).

Definition isStrWhiteSpaceChar (c : ascii) : bool :=
  let n := code c in
  ((9 <=? n) && (n <=? 13)) || (n =? 32) || (n =? 160).

Definition isDecimalDigit (c : ascii) : bool :=
  let n := code c in (48 <=? n) && (n <=? 57).

Definition digitValue (c : ascii) : Z := code c - 48.

(** ToBoolean: only the empty string is falsy *)
Definition truthy (s : string) : bool :=
  match s with EmptyString => false | String _ _ => true end.

Fixpoint trimStart (s : string) : string :=
  match s with
  | String c r => if isStrWhiteSpaceChar c then trimStart r else s
  | EmptyString => s
  end.

(** The longest run of decimal digits at the head of [s]: its value
    continuing [acc], its length, and what follows it *)
Fixpoint scanDigits (s : string) (acc : Z) (len : Z) : Z * Z * string :=
  match s with
  | String c r =>
      if isDecimalDigit c
      then scanDigits r (10 * acc + digitValue c) (len + 1)
      else (acc, len, s)
  | EmptyString => (acc, len, s)
  end.

(** [includes s sub]: [sub] occurs in [s] *)
Fixpoint includes (s sub : string) : bool :=
  String.prefix sub s ||
  match s with
  | String _ r => includes r sub
  | EmptyString => false
  end.

Fixpoint repeat0 (n : nat) : string :=
  match n with O => "" | S k => String "0" (repeat0 k) end.

(** Decimal digits of a natural number, ["0"] for zero *)
Definition ofZ (z : Z) : string :=
  DecimalString.NilZero.string_of_uint (N.to_uint (Z.to_N z)).

End Str.

(** ** The runtime: [parseFloat] and [Number.prototype.toFixed] *)

(** ExponentPart: [e] or [E], an optional sign, at least one digit;
    the exponent is 0 when no such part is at the head of [s] *)
Definition scanExponent (s : string) : Z :=
  match s with
  | String c r =>
      if (Str.code c =? 101) || (Str.code c =? 69) then
        let '(neg, r1) :=
          match r with
          | String "-" r' => (true, r')
          | String "+" r' => (false, r')
          | _ => (false, r)
          end in
        let '(v, len, _) := Str.scanDigits r1 0 0 in
        if len =? 0 then 0 else if neg then - v else v
      else 0
  | EmptyString => 0
  end.

(** [parseFloat(string)]: leading white space is skipped, the longest
    prefix that is a StrDecimalLiteral is read, and its value is
    rounded to the nearest number; NaN when there is no such prefix. *)
Definition parseFloat (input : string) : Number.t :=
  let trimmed := Str.trimStart input in
  let '(neg, s1) :=
    match trimmed with
    | String "-" r => (true, r)
    | String "+" r => (false, r)
    | _ => (false, trimmed)
    end in
  if String.prefix "Infinity" s1 then S754_infinity neg
  else
    let '(ipart, ilen, s2) := Str.scanDigits s1 0 0 in
    let '(mant, flen, s3) :=
      match s2 with
      | String "." r => Str.scanDigits r ipart 0
      | _ => (ipart, 0, s2)
      end in
    if (ilen =? 0) && (flen =? 0) then Number.NaN
    else Number.of_decimal neg mant (scanExponent s3 - flen).

(** The host functions the page calls and this file does not define *)
Class Host := {
  (** [Number::toString(x)], radix 10 *)
  Number_toString : Number.t -> string;
  (** [new Intl.NumberFormat('en-US', {style: 'currency', currency,
      minimumFractionDigits: 2, maximumFractionDigits: 2})]: [None]
      when the constructor throws, else the [format] method of the
      object, which takes its argument through ToNumber *)
  Intl_NumberFormat : string -> option (Number.t -> string);
  (** [a.localeCompare(b)] *)
  localeCompare : string -> string -> Z
}.

Section Runtime.

Context {rt : Host}.

(** [x.toFixed(fractionDigits)] for a number [x] *)
Definition toFixed (x : Number.t) (fractionDigits : nat) : string :=
  match x with
  | S754_nan | S754_infinity _ => Number_toString x
  | S754_zero _ =>
      if Nat.eqb fractionDigits 0 then "0"
      else "0." ++ Str.repeat0 fractionDigits
  | S754_finite s m e =>
      let sign := if s then "-" else "" in
      let big :=
        match e with
        | Zneg q => 10 ^ 21 * Z.pow_pos 2 q <=? Zpos m
        | _ => 10 ^ 21 <=? Zpos m * 2 ^ e
        end in
      if big then sign ++ Number_toString (S754_finite false m e)
      else
        let scale := 10 ^ Z.of_nat fractionDigits in
        let n :=
          match e with
          | Zneg q =>
              let d := Z.pow_pos 2 q in (2 * Zpos m * scale + d) / (2 * d)
          | _ => Zpos m * 2 ^ e * scale
          end in
        let digits := Str.ofZ n in
        if Nat.eqb fractionDigits 0 then sign ++ digits
        else
          let k := String.length digits in
          let padded :=
            if Nat.leb k fractionDigits
            then Str.repeat0 (fractionDigits + 1 - k) ++ digits
            else digits in
          let k' := String.length padded in
          sign ++ String.substring 0 (k' - fractionDigits) padded
               ++ "." ++ String.substring (k' - fractionDigits) fractionDigits padded
  end.

End Runtime.

(** ** The page: elements, object fields, the outside world *)

(** An [<option>] element, as [new Option(text, value)] builds it *)
Record HTMLOption := Option { text : string; optionValue : string }.

(** A [<select>] element: its options in tree order and the index of
    the selected one, if any *)
Record HTMLSelect := { options : list HTMLOption; selectedIndex : option nat }.

Module Select.

(** [select.value]: the value of the selected option, else [""] *)
Definition value (s : HTMLSelect) : string :=
  match selectedIndex s with
  | Some i =>
      match nth_error (options s) i with
      | Some o => optionValue o
      | None => ""
      end
  | None => ""
  end.

Fixpoint indexOf (v : string) (l : list HTMLOption) (i : nat) : option nat :=
  match l with
  | [] => None
  | o :: r => if String.eqb (optionValue o) v then Some i else indexOf v r (S i)
  end.

(** [select.value = v]: the first option whose value is [v] becomes
    the selected one; no option is selected when there is none *)
Definition setValue (v : string) (s : HTMLSelect) : HTMLSelect :=
  {| options := options s; selectedIndex := indexOf v (options s) 0 |}.

(** [select.appendChild(o)]: when no option was selected the first
    option of the list becomes the selected one *)
Definition appendChild (o : HTMLOption) (s : HTMLSelect) : HTMLSelect :=
  {| options := options s ++ [o];
     selectedIndex :=
       match selectedIndex s with
       | Some i => Some i
       | None => Some O
       end |}.

Definition placeholder : HTMLOption := Option "Select Currency" "".

(** [select.innerHTML = '<option value="">Select Currency</option>'] *)
Definition reset : HTMLSelect :=
  {| options := [placeholder]; selectedIndex := Some O |}.

Definition offers (v : string) (s : HTMLSelect) : bool :=
  match indexOf v (options s) 0 with Some _ => true | None => false end.

End Select.

(** What [resultsContent.innerHTML] holds.  The markup that the three
    templates put around the interpolated values is fixed text and is
    left out; [Markup] is whatever the page came with. *)
Inductive display :=
| Markup (html : string)
| Spinner (message : string)
| ErrorMessage (message : string)
| ConversionResult (formattedAmount : string) (displayAmount : Number.t)
    (fromCurrency : string) (formattedRate : string) (toCurrencyName : string).

(** [this.lastConversion = { fromCurrency, toCurrency, amount, rate }] *)
Record Conversion := {
  conv_fromCurrency : string;
  conv_toCurrency : string;
  conv_amount : Number.t;
  conv_rate : Number.t
}.

(** Values that reach [displayResult] as [convertedAmount]: a member
    of [data.rates], a number when present *)
Inductive value := Undefined | Num (n : Number.t).

Definition ToNumber (v : value) : Number.t :=
  match v with Undefined => Number.NaN | Num n => n end.

(** What can be thrown *)
Inductive exn :=
| Error (message : string)
| TypeError
| FetchRejected
| JsonRejected.

(** The [CurrencyConverter] object with the elements it holds, the URLs
    it has fetched and the lines it has logged *)
Record CurrencyConverter := {
  currencies : list (string * string);
  lastConversion : option Conversion;
  fromCurrency : HTMLSelect;
  toCurrency : HTMLSelect;
  amountInput : string;
  convertBtn_disabled : bool;
  resultsContent : display;
  fetched : list string;
  console : list (string * exn)
}.

Definition apiBaseUrl : string := "https://api.frankfurter.app".

Section Setters.

Variable st : CurrencyConverter.

Definition set_currencies v :=
  {| currencies := v; lastConversion := lastConversion st;
     fromCurrency := fromCurrency st; toCurrency := toCurrency st;
     amountInput := amountInput st; convertBtn_disabled := convertBtn_disabled st;
     resultsContent := resultsContent st; fetched := fetched st;
     console := console st |}.

Definition set_lastConversion v :=
  {| currencies := currencies st; lastConversion := v;
     fromCurrency := fromCurrency st; toCurrency := toCurrency st;
     amountInput := amountInput st; convertBtn_disabled := convertBtn_disabled st;
     resultsContent := resultsContent st; fetched := fetched st;
     console := console st |}.

Definition set_fromCurrency v :=
  {| currencies := currencies st; lastConversion := lastConversion st;
     fromCurrency := v; toCurrency := toCurrency st;
     amountInput := amountInput st; convertBtn_disabled := convertBtn_disabled st;
     resultsContent := resultsContent st; fetched := fetched st;
     console := console st |}.

Definition set_toCurrency v :=
  {| currencies := currencies st; lastConversion := lastConversion st;
     fromCurrency := fromCurrency st; toCurrency := v;
     amountInput := amountInput st; convertBtn_disabled := convertBtn_disabled st;
     resultsContent := resultsContent st; fetched := fetched st;
     console := console st |}.

Definition set_amountInput v :=
  {| currencies := currencies st; lastConversion := lastConversion st;
     fromCurrency := fromCurrency st; toCurrency := toCurrency st;
     amountInput := v; convertBtn_disabled := convertBtn_disabled st;
     resultsContent := resultsContent st; fetched := fetched st;
     console := console st |}.

Definition set_convertBtn_disabled v :=
  {| currencies := currencies st; lastConversion := lastConversion st;
     fromCurrency := fromCurrency st; toCurrency := toCurrency st;
     amountInput := amountInput st; convertBtn_disabled := v;
     resultsContent := resultsContent st; fetched := fetched st;
     console := console st |}.

Definition set_resultsContent v :=
  {| currencies := currencies st; lastConversion := lastConversion st;
     fromCurrency := fromCurrency st; toCurrency := toCurrency st;
     amountInput := amountInput st; convertBtn_disabled := convertBtn_disabled st;
     resultsContent := v; fetched := fetched st;
     console := console st |}.

Definition set_fetched v :=
  {| currencies := currencies st; lastConversion := lastConversion st;
     fromCurrency := fromCurrency st; toCurrency := toCurrency st;
     amountInput := amountInput st; convertBtn_disabled := convertBtn_disabled st;
     resultsContent := resultsContent st; fetched := v;
     console := console st |}.

Definition set_console v :=
  {| currencies := currencies st; lastConversion := lastConversion st;
     fromCurrency := fromCurrency st; toCurrency := toCurrency st;
     amountInput := amountInput st; convertBtn_disabled := convertBtn_disabled st;
     resultsContent := resultsContent st; fetched := fetched st;
     console := v |}.

End Setters.

(** ** Statements: state and exceptions

    A statement runs on the object and either completes with a value
    or throws; what it wrote before throwing stays written. *)

Inductive completion (A : Type) :=
| Normal (a : A)
| Throw (e : exn).
Arguments Normal {A} a.
Arguments Throw {A} e.

Definition M (A : Type) : Type := CurrencyConverter -> completion A * CurrencyConverter.

Definition ret {A} (a : A) : M A := fun st => (Normal a, st).

Definition throw {A} (e : exn) : M A := fun st => (Throw e, st).

Definition bind {A B} (m : M A) (k : A -> M B) : M B :=
  fun st =>
    match m st with
    | (Normal a, st') => k a st'
    | (Throw e, st') => (Throw e, st')
    end.

Definition lift {A} (c : completion A) : M A := fun st => (c, st).

Definition gets {A} (f : CurrencyConverter -> A) : M A := fun st => (Normal (f st), st).

Definition modify (f : CurrencyConverter -> CurrencyConverter) : M unit :=
  fun st => (Normal tt, f st).

(** [try { body } catch (error) { handler }] *)
Definition try_catch {A} (body : M A) (handler : exn -> M A) : M A :=
  fun st =>
    match body st with
    | (Normal a, st') => (Normal a, st')
    | (Throw e, st') => handler e st'
    end.

(** [try { body } finally { final }] *)
Definition try_finally {A} (body : M A) (final : M unit) : M A :=
  fun st =>
    let '(c, st') := body st in
    match final st' with
    | (Normal _, st'') => (c, st'')
    | (Throw e, st'') => (Throw e, st'')
    end.

Declare Scope js_scope.
Delimit Scope js_scope with js.
Notation "x <- m ;; k" := (bind m (fun x => k))
  (at level 100, m at next level, right associativity) : js_scope.
Notation "m ;; k" := (bind m (fun _ => k))
  (at level 100, right associativity) : js_scope.
Local Open Scope js_scope.

(** What a [fetch] followed by [response.json()] comes to *)
Inductive fetch_outcome (A : Type) :=
| NetworkFailure
| Response (status : Z) (json : option A).
Arguments NetworkFailure {A}.
Arguments Response {A} status json.

(** [response.ok] *)
Definition ok (status : Z) : bool := (200 <=? status) && (status <=? 299).

(** The body of [GET /currencies]: the entries of the object, in the
    order [Object.entries] lists them *)
Definition CatalogBody : Type := list (string * string).

(** The body of [GET /latest]: its [rates] member, if it has one *)
Record LatestBody := { rates : option (list (string * Number.t)) }.

(** [object[key]] on an object given by its entries *)
Fixpoint lookup {A} (key : string) (entries : list (string * A)) : option A :=
  match entries with
  | [] => None
  | (k, v) :: r => if String.eqb k key then Some v else lookup key r
  end.

(** An [async] method that stopped at an [await]: what it waits for
    and the locals it resumes with *)
Inductive pending :=
| AwaitCurrencies
| AwaitLatest (fromCurrency toCurrency : string) (amount : Number.t).

(** ** The methods of [CurrencyConverter] *)

Section Methods.

Context {rt : Host}.

(** [fetch(url)]: the request leaves; the caller awaits the outcome *)
Definition fetch (url : string) : M unit :=
  modify (fun st => set_fetched st (fetched st ++ [url])).

Definition console_error (label : string) (error : exn) : M unit :=
  modify (fun st => set_console st (console st ++ [(label, error)])).

Definition showLoading (message : string) : M unit :=
  modify (fun st => set_resultsContent st (Spinner message)).

Definition hideLoading : M unit := ret tt.

Definition showError (message : string) : M unit :=
  modify (fun st => set_resultsContent st (ErrorMessage message)).

(** [formatCurrency(amount, currencyCode)]: the [catch] branch calls
    [amount.toFixed], which only a number has *)
Definition formatCurrency (amount : value) (currencyCode : string)
  : completion string :=
  match Intl_NumberFormat currencyCode with
  | Some format => Normal (format (ToNumber amount))
  | None =>
      match amount with
      | Num n => Normal (currencyCode ++ " " ++ toFixed n 2)
      | Undefined => Throw TypeError
      end
  end.

(** [this.currencies[code] || code] *)
Definition currencyName (st : CurrencyConverter) (code : string) : string :=
  match lookup code (currencies st) with
  | Some name => if Str.truthy name then name else code
  | None => code
  end.

Definition displayResult (convertedAmount : value)
    (fromCurrency toCurrency : string) (rate : Number.t)
    (originalAmount : option Number.t) : M unit :=
  toCurrencyName <- gets (fun st => currencyName st toCurrency) ;;
  formattedAmount <- lift (formatCurrency convertedAmount toCurrency) ;;
  typed <- gets (fun st => parseFloat (amountInput st)) ;;
  let displayAmount :=
    match originalAmount with
    | Some a => if Number.truthy a then a else typed
    | None => typed
    end in
  formattedRate <- lift (formatCurrency (Num rate) toCurrency) ;;
  modify (fun st => set_resultsContent st
    (ConversionResult formattedAmount displayAmount fromCurrency
       formattedRate toCurrencyName)).

(** The value of [isValid] in [validateForm], through ToBoolean *)
Definition isValid (st : CurrencyConverter) : bool :=
  Str.truthy (Select.value (fromCurrency st)) &&
  Str.truthy (Select.value (toCurrency st)) &&
  Str.truthy (amountInput st) &&
  Number.gt (parseFloat (amountInput st)) Number.zero.

Definition validateForm : M unit :=
  modify (fun st => set_convertBtn_disabled st (negb (isValid st))).

(** [entries.sort(([a], [b]) => a.localeCompare(b))], stable *)
Fixpoint insertEntry (e : string * string) (sorted : list (string * string))
  : list (string * string) :=
  match sorted with
  | [] => [e]
  | x :: r =>
      if localeCompare (fst e) (fst x) <? 0 then e :: sorted
      else x :: insertEntry e r
  end.

Definition sortEntries (entries : list (string * string)) : list (string * string) :=
  fold_left (fun sorted e => insertEntry e sorted) entries [].

Definition populateCurrencyDropdowns : M unit :=
  currencyEntries <- gets (fun st => sortEntries (currencies st)) ;;
  modify (fun st => set_fromCurrency st Select.reset) ;;
  modify (fun st => set_toCurrency st Select.reset) ;;
  modify (fun st =>
    fold_left
      (fun st '(code, name) =>
         let option1 := Option (code ++ " - " ++ name) code in
         let option2 := Option (code ++ " - " ++ name) code in
         set_toCurrency
           (set_fromCurrency st (Select.appendChild option1 (fromCurrency st)))
           (Select.appendChild option2 (toCurrency st)))
      currencyEntries st).

(** [this.currencies.USD], through ToBoolean *)
Definition hasCurrency (st : CurrencyConverter) (code : string) : bool :=
  match lookup code (currencies st) with
  | Some name => Str.truthy name
  | None => false
  end.

Definition setDefaultCurrencies : M unit :=
  modify (fun st =>
    if hasCurrency st "USD"
    then set_fromCurrency st (Select.setValue "USD" (fromCurrency st))
    else st) ;;
  modify (fun st =>
    if hasCurrency st "EUR"
    then set_toCurrency st (Select.setValue "EUR" (toCurrency st))
    else st) ;;
  validateForm.

(** [loadCurrencies], up to [await fetch(...)] *)
Definition loadCurrencies : M pending :=
  showLoading "Loading currencies..." ;;
  fetch (apiBaseUrl ++ "/currencies") ;;
  ret AwaitCurrencies.

(** The rest of the [try] block of [loadCurrencies] *)
Definition loadCurrencies_try (r : fetch_outcome CatalogBody) : M unit :=
  match r with
  | NetworkFailure => throw FetchRejected
  | Response status json =>
      if negb (ok status)
      then throw (Error ("HTTP error! status: " ++ Str.ofZ status))
      else
        match json with
        | None => throw JsonRejected
        | Some body =>
            modify (fun st => set_currencies st body) ;;
            populateCurrencyDropdowns ;;
            setDefaultCurrencies ;;
            hideLoading
        end
  end.

(** [loadCurrencies], from the outcome of the request on *)
Definition loadCurrencies_resume (r : fetch_outcome CatalogBody) : M unit :=
  try_catch (loadCurrencies_try r)
    (fun error =>
       console_error "Error loading currencies:" error ;;
       showError "Failed to load currencies. Please refresh the page.").

(** The URL of the conversion request *)
Definition latestUrl (amount : Number.t) (fromCurrency toCurrency : string) : string :=
  apiBaseUrl ++ "/latest?amount=" ++ Number_toString amount
    ++ "&from=" ++ fromCurrency ++ "&to=" ++ toCurrency.

(** [performConversion], up to [await fetch(...)]; [None] when the
    method returns before it *)
Definition performConversion : M (option pending) :=
  fromCurrency <- gets (fun st => Select.value (fromCurrency st)) ;;
  toCurrency <- gets (fun st => Select.value (toCurrency st)) ;;
  amount <- gets (fun st => parseFloat (amountInput st)) ;;
  if negb (Str.truthy fromCurrency) || negb (Str.truthy toCurrency)
     || negb (Number.truthy amount) || Number.le amount Number.zero
  then
    showError "Please fill in all fields with valid values." ;;
    ret None
  else if String.eqb fromCurrency toCurrency then
    displayResult (Num amount) fromCurrency toCurrency Number.one None ;;
    ret None
  else
    showLoading "Converting..." ;;
    modify (fun st => set_convertBtn_disabled st true) ;;
    fetch (latestUrl amount fromCurrency toCurrency) ;;
    ret (Some (AwaitLatest fromCurrency toCurrency amount)).

(** The rest of the [try] block of [performConversion] *)
Definition performConversion_try (fromCurrency toCurrency : string)
    (amount : Number.t) (r : fetch_outcome LatestBody) : M unit :=
  match r with
  | NetworkFailure => throw FetchRejected
  | Response status json =>
      if negb (ok status)
      then throw (Error ("HTTP error! status: " ++ Str.ofZ status))
      else
        match json with
        | None => throw JsonRejected
        | Some data =>
            match rates data with
            | None => throw TypeError
            | Some members =>
                let convertedAmount :=
                  match lookup toCurrency members with
                  | Some n => Num n
                  | None => Undefined
                  end in
                let rate := Number.div (ToNumber convertedAmount) amount in
                displayResult convertedAmount fromCurrency toCurrency rate (Some amount) ;;
                modify (fun st => set_lastConversion st
                  (Some {| conv_fromCurrency := fromCurrency;
                           conv_toCurrency := toCurrency;
                           conv_amount := amount;
                           conv_rate := rate |}))
            end
        end
  end.

(** [performConversion], from the outcome of the request on *)
Definition performConversion_resume (fromCurrency toCurrency : string)
    (amount : Number.t) (r : fetch_outcome LatestBody) : M unit :=
  try_finally
    (try_catch (performConversion_try fromCurrency toCurrency amount r)
       (fun error =>
          console_error "Conversion error:" error ;;
          showError "Failed to convert currency. Please try again."))
    (hideLoading ;; validateForm).

(** [handleConversion(event)]: [event.preventDefault()] touches
    nothing here, then the method awaits [performConversion()] *)
Definition handleConversion : M (option pending) := performConversion.

(** [swapCurrencies]: the promise of [performConversion()] is
    dropped, so a rejection does not reach the caller *)
Definition swapCurrencies : M (option pending) :=
  fromValue <- gets (fun st => Select.value (fromCurrency st)) ;;
  toValue <- gets (fun st => Select.value (toCurrency st)) ;;
  if Str.truthy fromValue && Str.truthy toValue then
    modify (fun st => set_fromCurrency st (Select.setValue toValue (fromCurrency st))) ;;
    modify (fun st => set_toCurrency st (Select.setValue fromValue (toCurrency st))) ;;
    last <- gets lastConversion ;;
    typed <- gets amountInput ;;
    match last with
    | Some _ =>
        if Str.truthy typed
        then try_catch performConversion (fun _ => ret None)
        else ret None
    | None => ret None
    end
  else ret None.

(** [new CurrencyConverter()] on a page with these elements: the
    object and the request it leaves pending *)
Definition constructor (fromCurrency toCurrency : HTMLSelect)
    (amountInput : string) (convertBtn_disabled : bool)
    (resultsContent : display) : completion pending * CurrencyConverter :=
  loadCurrencies
    {| currencies := [];
       lastConversion := None;
       fromCurrency := fromCurrency;
       toCurrency := toCurrency;
       amountInput := amountInput;
       convertBtn_disabled := convertBtn_disabled;
       resultsContent := resultsContent;
       fetched := [];
       console := [] |}.

End Methods.

(** ** The page as it runs: one handler or one resumed method at a time *)

Record page := { object : CurrencyConverter; jobs : list pending }.

Inductive event :=
| Submit
| ClickSwap
| TypeAmount (typed : string)
| ChooseFrom (index : nat)
| ChooseTo (index : nat)
| CurrenciesArrive (r : fetch_outcome CatalogBody)
| LatestArrives (job : nat) (r : fetch_outcome LatestBody).

Fixpoint removeJob (n : nat) (l : list pending) : list pending :=
  match l, n with
  | [], _ => []
  | _ :: r, O => r
  | p :: r, S k => p :: removeJob k r
  end.

Fixpoint removeCurrenciesJob (l : list pending) : list pending :=
  match l with
  | [] => []
  | AwaitCurrencies :: r => r
  | p :: r => p :: removeCurrenciesJob r
  end.

Definition awaitsCurrencies (l : list pending) : bool :=
  existsb (fun p => match p with AwaitCurrencies => true | _ => false end) l.

(** The user picks the option at [index] of a selector *)
Definition choose (index : nat) (s : HTMLSelect) : HTMLSelect :=
  if Nat.ltb index (List.length (options s))
  then {| options := options s; selectedIndex := Some index |}
  else s.

Section EventLoop.

Context {rt : Host}.

(** A handler that starts an [async] method leaves its continuation
    among the jobs; an error nobody catches ends the handler *)
Definition started (pg : page) (run : completion (option pending) * CurrencyConverter)
  : page :=
  match run with
  | (Normal (Some p), st) => {| object := st; jobs := jobs pg ++ [p] |}
  | (_, st) => {| object := st; jobs := jobs pg |}
  end.

Definition step (pg : page) (ev : event) : page :=
  match ev with
  | Submit => started pg (handleConversion (object pg))
  | ClickSwap => started pg (swapCurrencies (object pg))
  | TypeAmount typed =>
      {| object := snd (validateForm (set_amountInput (object pg) typed));
         jobs := jobs pg |}
  | ChooseFrom index =>
      let st := object pg in
      {| object := snd (validateForm
                          (set_fromCurrency st (choose index (fromCurrency st))));
         jobs := jobs pg |}
  | ChooseTo index =>
      let st := object pg in
      {| object := snd (validateForm
                          (set_toCurrency st (choose index (toCurrency st))));
         jobs := jobs pg |}
  | CurrenciesArrive r =>
      if awaitsCurrencies (jobs pg)
      then {| object := snd (loadCurrencies_resume r (object pg));
              jobs := removeCurrenciesJob (jobs pg) |}
      else pg
  | LatestArrives n r =>
      match nth_error (jobs pg) n with
      | Some (AwaitLatest f t a) =>
          {| object := snd (performConversion_resume f t a r (object pg));
             jobs := removeJob n (jobs pg) |}
      | _ => pg
      end
  end.

Definition run (pg : page) (events : list event) : page :=
  fold_left step events pg.

(** The page once [DOMContentLoaded] has built the object *)
Definition loaded (fromCurrency toCurrency : HTMLSelect)
    (amountInput : string) (convertBtn_disabled : bool)
    (resultsContent : display) : page :=
  match constructor fromCurrency toCurrency amountInput
          convertBtn_disabled resultsContent with
  | (Normal p, st) => {| object := st; jobs := [p] |}
  | (Throw _, st) => {| object := st; jobs := [] |}
  end.

(** An outcome with which the [try] block of [performConversion]
    reaches the member lookup in [data.rates] *)
Definition deliversRates (r : fetch_outcome LatestBody) : bool :=
  match r with
  | Response status (Some data) =>
      ok status && match rates data with Some _ => true | None => false end
  | _ => false
  end.

Definition isLatestSuccess (ev : event) : bool :=
  match ev with
  | LatestArrives _ r => deliversRates r
  | _ => false
  end.

End EventLoop.

(** ** A host and a page to run the methods on *)

Module Sample.

(** Prints the numbers that are small non-negative integers *)
Definition integerToString (x : Number.t) : string :=
  match x with
  | S754_zero _ => "0"
  | S754_finite false m e =>
      match e with
      | Zneg q => Str.ofZ (Zpos m / Z.pow_pos 2 q)
      | _ => Str.ofZ (Zpos m * 2 ^ e)
      end
  | S754_infinity false => "Infinity"
  | _ => "NaN"
  end.

Definition plain : Host :=
  {| Number_toString := integerToString;
     Intl_NumberFormat := fun _ => None;
     localeCompare := fun a b =>
       match String.compare a b with Lt => -1 | Eq => 0 | Gt => 1 end |}.

Definition knows (code : string) : bool :=
  existsb (String.eqb code) ["USD"; "EUR"; "GBP"; "JPY"].

(** Formats in the known currencies and throws for every other code *)
Definition host : Host :=
  {| Number_toString := integerToString;
     Intl_NumberFormat := fun code =>
       if knows code
       then Some (fun x => code ++ " " ++ toFixed (rt := plain) x 2)
       else None;
     localeCompare := localeCompare (Host := plain) |}.

Definition emptySelect : HTMLSelect := Select.reset.

(** The page after [GET /currencies] answered with two currencies *)
Definition catalog : CatalogBody := [("USD", "US Dollar"); ("EUR", "Euro")].

Definition ready : page :=
  run (rt := host)
    (loaded emptySelect emptySelect "" true (Markup ""))
    [CurrenciesArrive (Response 200 (Some catalog))].

Definition typed (amount : string) : page :=
  run (rt := host) ready [TypeAmount amount].

(** Both selectors on USD, amount 10 *)
Definition sameCurrency : CurrencyConverter :=
  object (run (rt := host) ready [ChooseTo 2; TypeAmount "10"]).

(** USD to EUR, amount 10, nothing converted yet *)
Definition fresh : CurrencyConverter := object (typed "10").

(** USD to EUR, amount 10, submitted and not yet answered *)
Definition submitted : page := run (rt := host) (typed "10") [Submit].

Definition answer : fetch_outcome LatestBody :=
  Response 200 (Some {| rates := Some [("EUR", parseFloat "9.2")] |}).

(** USD to EUR, amount 10, converted once *)
Definition converted : CurrencyConverter :=
  object (run (rt := host) submitted [LatestArrives 0 answer]).

(** The page before the catalog has arrived *)
Definition unloaded : CurrencyConverter :=
  object (loaded emptySelect emptySelect "" true (Markup "")).

End Sample.

(** ** A host whose [Intl.NumberFormat] tests the code as ECMA-402 does *)

Module Ecma402.

Definition isAsciiLetter (c : ascii) : bool :=
  let n := Str.code c in
  ((65 <=? n) && (n <=? 90)) || ((97 <=? n) && (n <=? 122)).

Fixpoint allLetters (s : string) : bool :=
  match s with
  | EmptyString => true
  | String c r => isAsciiLetter c && allLetters r
  end.

(** IsWellFormedCurrencyCode: three code units, each an ASCII letter *)
Definition IsWellFormedCurrencyCode (currency : string) : bool :=
  Nat.eqb (String.length currency) 3 && allLetters currency.

Definition toUpper (c : ascii) : ascii :=
  let n := Str.code c in
  if (97 <=? n) && (n <=? 122) then ascii_of_nat (nat_of_ascii c - 32) else c.

Fixpoint uppercase (s : string) : string :=
  match s with
  | EmptyString => EmptyString
  | String c r => String (toUpper c) (uppercase r)
  end.

(** U+00A0, the space after a code shown as symbol, and U+00A4, the
    sign shown for the code XXX *)
Definition nbsp : string := String (ascii_of_nat 160) "".
Definition currencySign : string := String (ascii_of_nat 164) "".

(** What en-US shows in front of the digits *)
Definition symbol (currency : string) : string :=
  let normalized := uppercase currency in
  if String.eqb normalized "USD" then "$"
  else if String.eqb normalized "XXX" then currencySign
  else normalized ++ nbsp.

(** A comma before every group of three digits but the first *)
Fixpoint group (digits : string) (remaining : nat) : string :=
  match digits with
  | EmptyString => EmptyString
  | String c r =>
      String c
        (if negb (Nat.eqb (remaining - 1) 0) && Nat.eqb (Nat.modulo (remaining - 1) 3) 0
         then "," ++ group r (remaining - 1)
         else group r (remaining - 1))
  end.

(** The [format] method for en-US with two fraction digits: sign,
    symbol, grouped integer digits, point, two digits.  The digits of
    a number that is not finite or not below 10^21 are left as
    [toFixed] gives them. *)
Definition format (currency : string) (x : Number.t) : string :=
  let sign :=
    match x with
    | S754_finite true _ _ | S754_infinity true => "-"
    | _ => ""
    end in
  let digits := toFixed (rt := Sample.plain) (SFabs x) 2 in
  let n := String.length digits in
  let body :=
    if Number.isFinite x && Nat.leb 4 n && Nat.leb n 24
    then group (String.substring 0 (n - 3) digits) (n - 3)
           ++ String.substring (n - 3) 3 digits
    else digits in
  sign ++ symbol currency ++ body.

(** The constructor throws a RangeError exactly for a code that is
    not well formed *)
Definition host : Host :=
  {| Number_toString := Sample.integerToString;
     Intl_NumberFormat := fun currency =>
       if IsWellFormedCurrencyCode currency then Some (format currency) else None;
     localeCompare := localeCompare (Host := Sample.plain) |}.

End Ecma402.

(** A run with a failed and a successful conversion and two swaps *)
Definition session : list event :=
  [CurrenciesArrive (Response 200 (Some Sample.catalog));
   TypeAmount "10"; Submit; LatestArrives 0 (Response 503 None);
   Submit; LatestArrives 0 Sample.answer; ClickSwap; TypeAmount "12.5"].

(** ** Abbreviations used in the statements *)

Section Vocabulary.

Context {rt : Host}.

(** What [formatCurrency] returns for a number *)
Definition formatted (n : Number.t) (currencyCode : string) : string :=
  match Intl_NumberFormat currencyCode with
  | Some format => format n
  | None => currencyCode ++ " " ++ toFixed n 2
  end.

(** The condition under which [performConversion] goes on *)
Definition precondition (st : CurrencyConverter) : bool :=
  Str.truthy (Select.value (fromCurrency st)) &&
  Str.truthy (Select.value (toCurrency st)) &&
  Number.gt (parseFloat (amountInput st)) Number.zero.

(** Both selections exchanged *)
Definition exchanged (st : CurrencyConverter) : CurrencyConverter :=
  set_toCurrency
    (set_fromCurrency st
       (Select.setValue (Select.value (toCurrency st)) (fromCurrency st)))
    (Select.setValue (Select.value (fromCurrency st)) (toCurrency st)).

End Vocabulary.

(** A statement preserves a field when running it leaves the field as
    it was, however it completes *)
Definition preserves {X A : Type} (field : CurrencyConverter -> X) (m : M A) : Prop :=
  forall st, field (snd (m st)) = field st.

(** The option that [populateCurrencyDropdowns] builds for an entry *)
Definition optionOf (entry : string * string) : HTMLOption :=
  Option (fst entry ++ " - " ++ snd entry) (fst entry).

(** A selector as [populateCurrencyDropdowns] leaves it: the
    placeholder, selected, then one option for each entry *)
Definition populated (entries : list (string * string)) : HTMLSelect :=
  {| options := Select.placeholder :: map optionOf entries;
     selectedIndex := Some O |}.

(** [b] is not put before [a] by the comparator *)
Definition inOrder {rt : Host} (a b : string * string) : Prop :=
  (localeCompare (fst b) (fst a) <? 0) = false.

(** Both selectors list the same options *)
Definition sameOptions (st : CurrencyConverter) : Prop :=
  options (fromCurrency st) = options (toCurrency st).

(** The button is enabled only on a form that [validateForm] accepts *)
Definition enabledOnlyIfValid (st : CurrencyConverter) : Prop :=
  convertBtn_disabled st = false -> isValid st = true.

(** What [performConversion] has checked before it sends a request *)
Definition checkedRequest (f t : string) (a : Number.t) : Prop :=
  f <> "" /\ t <> "" /\ f <> t /\ Number.gt a Number.zero = true.

Definition checkedJob (p : pending) : Prop :=
  match p with
  | AwaitCurrencies => True
  | AwaitLatest f t a => checkedRequest f t a
  end.

Definition checkedSlot (st : CurrencyConverter) : Prop :=
  match lastConversion st with
  | Some c => checkedRequest (conv_fromCurrency c) (conv_toCurrency c) (conv_amount c)
  | None => True
  end.

(** The object once [populateCurrencyDropdowns] has run on it *)
Definition withOptions {rt : Host} (st : CurrencyConverter) : CurrencyConverter :=
  set_toCurrency
    (set_fromCurrency st (populated (sortEntries (currencies st))))
    (populated (sortEntries (currencies st))).

(** The object once the two assignments of [setDefaultCurrencies]
    have run on it *)
Definition withDefaults {rt : Host} (st : CurrencyConverter) : CurrencyConverter :=
  let st1 :=
    if hasCurrency st "USD"
    then set_fromCurrency st (Select.setValue "USD" (fromCurrency st))
    else st in
  if hasCurrency st1 "EUR"
  then set_toCurrency st1 (Select.setValue "EUR" (toCurrency st1))
  else st1.

(** ** Facts about the runtime *)

Example parseFloat_tenth :
  parseFloat "0.1" = S754_finite false 7205759403792794 (-56).
Proof. vm_compute. reflexivity. Qed.

Example parseFloat_reads_a_prefix : parseFloat "  12abc" = Number.of_Z 12.
Proof. vm_compute. reflexivity. Qed.

Example parseFloat_without_digits :
  parseFloat "abc" = Number.NaN /\ parseFloat "" = Number.NaN
  /\ parseFloat "." = Number.NaN.
Proof. vm_compute. repeat split. Qed.

Example parseFloat_overflows : parseFloat "1e999" = Number.Infinity.
Proof. vm_compute. reflexivity. Qed.

Example toFixed_tie_goes_up :
  toFixed (rt := Sample.plain) (parseFloat "0.125") 2 = "0.13".
Proof. vm_compute. reflexivity. Qed.

Example toFixed_rounds_the_binary_value :
  toFixed (rt := Sample.plain) (parseFloat "1.005") 2 = "1.00".
Proof. vm_compute. reflexivity. Qed.

Lemma truthy_nonempty (s : string) : Str.truthy s = true <-> s <> "".
Proof.
  destruct s; simpl; split; intro E; try reflexivity; try discriminate.
  now elim E.
Qed.

Lemma falsy_empty (s : string) : Str.truthy s = false <-> s = "".
Proof.
  destruct s; simpl; split; intro E; try reflexivity; discriminate.
Qed.

(** The guard [!amount || amount <= 0] lets through the numbers above
    zero and no others *)
Lemma guard_amount (a : Number.t) :
  negb (Number.truthy a) || Number.le a Number.zero
  = negb (Number.gt a Number.zero).
Proof.
  destruct a as [s | s | | s m e]; try destruct s; reflexivity.
Qed.

Lemma gt_zero_iff (a : Number.t) :
  Number.gt a Number.zero = true <->
  Number.isNaN a = false /\ Number.le a Number.zero = false.
Proof.
  destruct a as [s | s | | s m e]; try destruct s; simpl;
    split; intro E; try discriminate; try (split; reflexivity);
    try reflexivity; destruct E; discriminate.
Qed.

(** ** Frames: what a statement leaves as it was *)

Section Frames.

Context {X : Type} (field : CurrencyConverter -> X).

Lemma preserves_ret {A} (a : A) : preserves field (ret a).
Proof. intro st; reflexivity. Qed.

Lemma preserves_throw {A} (e : exn) : preserves field (@throw A e).
Proof. intro st; reflexivity. Qed.

Lemma preserves_lift {A} (c : completion A) : preserves field (lift c).
Proof. intro st; reflexivity. Qed.

Lemma preserves_gets {A} (f : CurrencyConverter -> A) : preserves field (gets f).
Proof. intro st; reflexivity. Qed.

Lemma preserves_modify (f : CurrencyConverter -> CurrencyConverter) :
  (forall st, field (f st) = field st) -> preserves field (modify f).
Proof. intros Hf st; apply Hf. Qed.

Lemma preserves_bind {A B} (m : M A) (k : A -> M B) :
  preserves field m -> (forall a, preserves field (k a)) ->
  preserves field (bind m k).
Proof.
  intros Hm Hk st. unfold bind.
  specialize (Hm st). destruct (m st) as [[a | e] st']; simpl in *.
  - rewrite Hk. exact Hm.
  - exact Hm.
Qed.

Lemma preserves_try_catch {A} (body : M A) (handler : exn -> M A) :
  preserves field body -> (forall e, preserves field (handler e)) ->
  preserves field (try_catch body handler).
Proof.
  intros Hb Hh st. unfold try_catch.
  specialize (Hb st). destruct (body st) as [[a | e] st']; simpl in *.
  - exact Hb.
  - rewrite Hh. exact Hb.
Qed.

Lemma preserves_try_finally {A} (body : M A) (final : M unit) :
  preserves field body -> preserves field final ->
  preserves field (try_finally body final).
Proof.
  intros Hb Hf st. unfold try_finally.
  specialize (Hb st). destruct (body st) as [c st']; simpl in *.
  specialize (Hf st'). destruct (final st') as [[u | e] st'']; simpl in *;
    congruence.
Qed.

End Frames.

Ltac frame_step :=
  first
    [ apply preserves_ret
    | apply preserves_throw
    | apply preserves_lift
    | apply preserves_gets
    | apply preserves_modify; intro; reflexivity
    | apply preserves_bind; [ | intro ]
    | apply preserves_try_catch; [ | intro ]
    | apply preserves_try_finally
    | match goal with
      | |- preserves _ (if ?b then _ else _) => destruct b
      | |- preserves _ (match ?x with _ => _ end) => destruct x
      | |- preserves _ (let _ := _ in _) => cbv zeta
      end ].

Ltac frame := repeat frame_step.

Section MethodFacts.

Context {rt : Host}.

Lemma formatCurrency_number n code :
  formatCurrency (Num n) code = Normal (formatted n code).
Proof.
  unfold formatCurrency, formatted. destruct (Intl_NumberFormat code); reflexivity.
Qed.

(** [displayResult] with a number for [convertedAmount] *)
Lemma displayResult_number n f t rate original st :
  displayResult (Num n) f t rate original st
  = (Normal tt,
     set_resultsContent st
       (ConversionResult (formatted n t)
          match original with
          | Some a => if Number.truthy a then a else parseFloat (amountInput st)
          | None => parseFloat (amountInput st)
          end
          f (formatted rate t) (currencyName st t))).
Proof.
  unfold displayResult, bind, gets, lift, modify.
  rewrite !formatCurrency_number. reflexivity.
Qed.

(** [displayResult] writes the results region and nothing else *)
Lemma displayResult_shape v f t rate original st :
  (exists d, displayResult v f t rate original st
             = (Normal tt, set_resultsContent st d))
  \/ (exists e, displayResult v f t rate original st = (Throw e, st)).
Proof.
  unfold displayResult, bind, gets, lift, modify.
  destruct (formatCurrency v t) as [s | e]; simpl.
  - rewrite formatCurrency_number. left. eexists. reflexivity.
  - right. eexists. reflexivity.
Qed.

Lemma performConversion_guard st :
  negb (Str.truthy (Select.value (fromCurrency st)))
  || negb (Str.truthy (Select.value (toCurrency st)))
  || negb (Number.truthy (parseFloat (amountInput st)))
  || Number.le (parseFloat (amountInput st)) Number.zero
  = negb (precondition st).
Proof.
  unfold precondition. rewrite <- !orb_assoc, guard_amount.
  rewrite !negb_andb, <- !orb_assoc; reflexivity.
Qed.

Lemma performConversion_invalid st :
  precondition st = false ->
  performConversion st
  = (Normal None,
     set_resultsContent st
       (ErrorMessage "Please fill in all fields with valid values.")).
Proof.
  intro E. unfold performConversion, bind, gets.
  rewrite performConversion_guard, E. reflexivity.
Qed.

Lemma performConversion_identity st :
  precondition st = true ->
  Select.value (fromCurrency st) = Select.value (toCurrency st) ->
  performConversion st
  = (Normal None,
     snd (displayResult (Num (parseFloat (amountInput st)))
            (Select.value (fromCurrency st)) (Select.value (toCurrency st))
            Number.one None st)).
Proof.
  intros E Eq. unfold performConversion, bind, gets.
  rewrite performConversion_guard, E.
  change (negb true) with false. cbv beta iota.
  rewrite Eq, String.eqb_refl.
  rewrite !displayResult_number. reflexivity.
Qed.

Lemma performConversion_request st :
  precondition st = true ->
  Select.value (fromCurrency st) <> Select.value (toCurrency st) ->
  performConversion st
  = (Normal (Some (AwaitLatest (Select.value (fromCurrency st))
                     (Select.value (toCurrency st))
                     (parseFloat (amountInput st)))),
     set_fetched
       (set_convertBtn_disabled
          (set_resultsContent st (Spinner "Converting...")) true)
       (fetched st ++
          [latestUrl (parseFloat (amountInput st))
             (Select.value (fromCurrency st)) (Select.value (toCurrency st))])).
Proof.
  intros E Ne. unfold performConversion, bind, gets.
  rewrite performConversion_guard, E.
  change (negb true) with false. cbv beta iota.
  apply String.eqb_neq in Ne. rewrite Ne. reflexivity.
Qed.

(** The part of [performConversion] before the request never throws *)
Lemma performConversion_normal st :
  exists p st', performConversion st = (Normal p, st').
Proof.
  destruct (precondition st) eqn:E.
  - destruct (String.eqb_spec (Select.value (fromCurrency st))
                (Select.value (toCurrency st))) as [Eq | Ne].
    + rewrite (performConversion_identity st E Eq). eauto.
    + rewrite (performConversion_request st E Ne). eauto.
  - rewrite (performConversion_invalid st E). eauto.
Qed.

Lemma performConversion_keeps_slot : preserves lastConversion performConversion.
Proof.
  unfold performConversion. frame.
Qed.

Lemma validateForm_keeps_slot : preserves lastConversion validateForm.
Proof. unfold validateForm. frame. Qed.

Lemma swapCurrencies_keeps_slot : preserves lastConversion swapCurrencies.
Proof.
  unfold swapCurrencies. frame.
Qed.

End MethodFacts.

(** ** The conversion request *)

Section Conversion.

Context {rt : Host}.

(** C1: with the same currency code A selected on both sides and an
    amount a above zero, [performConversion] shows the result for
    converted amount a and rate 1, returns before any request, and
    fetches nothing. *)
Theorem identity_conversion_is_local
    (st : CurrencyConverter) (A : string) (a : Number.t) :
  Select.value (fromCurrency st) = A ->
  Select.value (toCurrency st) = A ->
  A <> "" ->
  parseFloat (amountInput st) = a ->
  Number.gt a Number.zero = true ->
  exists st',
    performConversion st = (Normal None, st') /\
    displayResult (Num a) A A Number.one None st = (Normal tt, st') /\
    resultsContent st'
    = ConversionResult (formatted a A) a A (formatted Number.one A)
        (currencyName st A) /\
    fetched st' = fetched st.
Proof.
  intros Hf Ht HA Ha Hpos.
  assert (Hpre : precondition st = true).
  { unfold precondition. rewrite Hf, Ht, Ha, Hpos.
    apply truthy_nonempty in HA. rewrite HA. reflexivity. }
  assert (Heq : Select.value (fromCurrency st) = Select.value (toCurrency st))
    by congruence.
  rewrite (performConversion_identity st Hpre Heq).
  rewrite Hf, Ht, Ha, displayResult_number.
  eexists. repeat split. simpl. rewrite Ha. reflexivity.
Qed.

(** C8: when a currency selection is empty or the parsed amount is
    not above zero, [performConversion] fetches nothing and shows the
    validation error; so a request leaves only when both selections
    are non-empty and the parsed amount is above zero. *)
Theorem no_request_without_precondition (st : CurrencyConverter) :
  Select.value (fromCurrency st) = ""
  \/ Select.value (toCurrency st) = ""
  \/ Number.gt (parseFloat (amountInput st)) Number.zero = false ->
  exists st',
    performConversion st = (Normal None, st') /\
    fetched st' = fetched st /\
    resultsContent st'
    = ErrorMessage "Please fill in all fields with valid values.".
Proof.
  intro Hbad.
  assert (Hpre : precondition st = false).
  { unfold precondition.
    destruct Hbad as [E | [E | E]].
    - apply falsy_empty in E. rewrite E. reflexivity.
    - apply falsy_empty in E. rewrite E. apply andb_false_intro1, andb_false_r.
    - rewrite E. apply andb_false_r. }
  rewrite (performConversion_invalid st Hpre).
  eexists. repeat split.
Qed.

(** What the [try] block of [performConversion] does when the service
    answers with a number under [rates[toCurrency]] *)
Lemma performConversion_try_success st f t a status data members c :
  ok status = true ->
  rates data = Some members ->
  lookup t members = Some c ->
  performConversion_try f t a (Response status (Some data)) st
  = (Normal tt,
     set_lastConversion
       (set_resultsContent st
          (ConversionResult (formatted c t)
             (if Number.truthy a then a else parseFloat (amountInput st))
             f (formatted (Number.div c a) t) (currencyName st t)))
       (Some {| conv_fromCurrency := f; conv_toCurrency := t;
                conv_amount := a; conv_rate := Number.div c a |})).
Proof.
  intros Hok Hr Hc. unfold performConversion_try.
  rewrite Hok, Hr, Hc.
  change (negb true) with false. cbv beta iota.
  unfold bind. change (ToNumber (Num c)) with c.
  rewrite displayResult_number. reflexivity.
Qed.

(** C2: when the service answers with c under [rates[toCurrency]],
    the rate put in [lastConversion] is the quotient c / amount of
    the two numbers as they are, and the rate line of the result
    shows that same quotient. *)
Theorem rate_is_exact_quotient
    (st : CurrencyConverter) (f t : string) (a : Number.t)
    (status : Z) (data : LatestBody) (members : list (string * Number.t))
    (c : Number.t) :
  ok status = true ->
  rates data = Some members ->
  lookup t members = Some c ->
  exists st',
    performConversion_resume f t a (Response status (Some data)) st
    = (Normal tt, st') /\
    lastConversion st'
    = Some {| conv_fromCurrency := f; conv_toCurrency := t;
              conv_amount := a; conv_rate := Number.div c a |} /\
    resultsContent st'
    = ConversionResult (formatted c t)
        (if Number.truthy a then a else parseFloat (amountInput st))
        f (formatted (Number.div c a) t) (currencyName st t).
Proof.
  intros Hok Hr Hc.
  unfold performConversion_resume, try_finally, try_catch.
  rewrite (performConversion_try_success st f t a status data members c Hok Hr Hc).
  eexists. repeat split.
Qed.

(** The [try] block writes nothing before it throws *)
Lemma performConversion_try_throws st f t a r e st1 :
  performConversion_try f t a r st = (Throw e, st1) -> st1 = st.
Proof.
  unfold performConversion_try.
  destruct r as [ | status [data | ]]; unfold throw.
  - congruence.
  - destruct (negb (ok status)); [congruence | ].
    destruct (rates data) as [members | ]; [ | congruence].
    unfold bind.
    destruct (displayResult_shape
                match lookup t members with Some n => Num n | None => Undefined end
                f t
                (Number.div
                   (ToNumber match lookup t members with
                             | Some n => Num n | None => Undefined end) a)
                (Some a) st) as [[d E] | [e' E]]; rewrite E.
    + unfold modify. congruence.
    + congruence.
  - destruct (negb (ok status)); congruence.
Qed.

Lemma performConversion_try_transport st f t a :
  performConversion_try f t a NetworkFailure st = (Throw FetchRejected, st).
Proof. reflexivity. Qed.

Lemma performConversion_try_status st f t a status json :
  ok status = false ->
  performConversion_try f t a (Response status json) st
  = (Throw (Error ("HTTP error! status: " ++ Str.ofZ status)), st).
Proof.
  intro E. unfold performConversion_try. rewrite E. reflexivity.
Qed.

(** C6: when the request fails in transport, the status is not a
    success status, or the [try] block throws anything else,
    [performConversion] completes normally, shows the conversion
    failure message and leaves [lastConversion] as it was. *)
Theorem failed_conversion_is_reported
    (st : CurrencyConverter) (f t : string) (a : Number.t)
    (r : fetch_outcome LatestBody) :
  r = NetworkFailure
  \/ (exists status json, r = Response status json /\ ok status = false)
  \/ (exists e st1, performConversion_try f t a r st = (Throw e, st1)) ->
  exists st',
    performConversion_resume f t a r st = (Normal tt, st') /\
    resultsContent st'
    = ErrorMessage "Failed to convert currency. Please try again." /\
    lastConversion st' = lastConversion st.
Proof.
  intro Hfail.
  assert (Hthrow : exists e, performConversion_try f t a r st = (Throw e, st)).
  { destruct Hfail as [E | [(status & json & E & Hs) | (e & st1 & E)]].
    - subst r. eexists. apply performConversion_try_transport.
    - subst r. eexists. apply performConversion_try_status, Hs.
    - pose proof (performConversion_try_throws _ _ _ _ _ _ _ E). subst st1.
      eexists. exact E. }
  destruct Hthrow as [e E].
  unfold performConversion_resume, try_finally, try_catch.
  rewrite E. eexists. repeat split.
Qed.

End Conversion.

(** ** The form: validation and swap *)

Section Form.

Context {rt : Host}.

(** C3: [validateForm] enables the button exactly when both
    selections and the amount field are non-empty and the parsed
    amount is above zero; an amount that parses to NaN or to a number
    not above zero is never above zero, so the button is disabled. *)
Theorem validateForm_enables_iff (st : CurrencyConverter) :
  (convertBtn_disabled (snd (validateForm st)) = false <->
     Select.value (fromCurrency st) <> "" /\
     Select.value (toCurrency st) <> "" /\
     amountInput st <> "" /\
     Number.gt (parseFloat (amountInput st)) Number.zero = true)
  /\ (Number.gt (parseFloat (amountInput st)) Number.zero = true <->
        Number.isNaN (parseFloat (amountInput st)) = false /\
        Number.le (parseFloat (amountInput st)) Number.zero = false).
Proof.
  split; [ | apply gt_zero_iff].
  unfold validateForm, modify, isValid. simpl.
  rewrite negb_false_iff, !andb_true_iff, !truthy_nonempty. tauto.
Qed.

Lemma indexOf_nth v l i j :
  Select.indexOf v l i = Some j ->
  exists o, nth_error l (j - i) = Some o /\ optionValue o = v /\ (i <= j)%nat.
Proof.
  revert i. induction l as [ | o l IH]; intros i E; simpl in E; [discriminate | ].
  destruct (String.eqb_spec (optionValue o) v) as [Ev | Nv].
  - injection E as <-. exists o. rewrite Nat.sub_diag. auto.
  - destruct (IH _ E) as (o' & Hn & Hv & Hle). exists o'.
    replace (j - i)%nat with (S (j - S i)) by lia. simpl. repeat split; auto; lia.
Qed.

Lemma value_setValue v s :
  Select.offers v s = true -> Select.value (Select.setValue v s) = v.
Proof.
  unfold Select.offers, Select.value, Select.setValue. simpl.
  destruct (Select.indexOf v (options s) 0) as [j | ] eqn:E; [ | discriminate].
  intros _. destruct (indexOf_nth _ _ _ _ E) as (o & Hn & Hv & _).
  rewrite Nat.sub_0_r in Hn. rewrite Hn. exact Hv.
Qed.

Lemma swapCurrencies_unfold st last :
  Select.value (fromCurrency st) <> "" ->
  Select.value (toCurrency st) <> "" ->
  amountInput st <> "" ->
  lastConversion st = Some last ->
  swapCurrencies st = performConversion (exchanged st).
Proof.
  intros Hf Ht Ha Hl.
  apply truthy_nonempty in Hf, Ht, Ha.
  unfold swapCurrencies, bind, gets, modify. rewrite Hf, Ht.
  change (true && true) with true. cbv beta iota.
  set (st1 := set_toCurrency _ _).
  assert (E1 : st1 = exchanged st) by reflexivity.
  clearbody st1. subst st1.
  change (lastConversion (exchanged st)) with (lastConversion st).
  change (amountInput (exchanged st)) with (amountInput st).
  rewrite Hl, Ha. unfold try_catch.
  destruct (performConversion_normal (exchanged st)) as (p & st' & E).
  rewrite E. reflexivity.
Qed.

(** C4: in a state where both selections are non-empty, each is on
    offer in the other selector, the amount field is non-empty and a
    conversion is recorded in [lastConversion], [swapCurrencies]
    exchanges the two selections and runs [performConversion] on
    them at once; the request for the swapped currencies and the
    same amount leaves when the parsed amount is above zero and the
    two currencies differ. *)
Theorem swap_reissues_after_a_conversion
    (st : CurrencyConverter) (last : Conversion) :
  Select.value (fromCurrency st) <> "" ->
  Select.value (toCurrency st) <> "" ->
  Select.offers (Select.value (toCurrency st)) (fromCurrency st) = true ->
  Select.offers (Select.value (fromCurrency st)) (toCurrency st) = true ->
  amountInput st <> "" ->
  lastConversion st = Some last ->
  let fromValue := Select.value (fromCurrency st) in
  let toValue := Select.value (toCurrency st) in
  let amount := parseFloat (amountInput st) in
  Select.value (fromCurrency (exchanged st)) = toValue /\
  Select.value (toCurrency (exchanged st)) = fromValue /\
  amountInput (exchanged st) = amountInput st /\
  swapCurrencies st = performConversion (exchanged st) /\
  swapCurrencies st
  = if Number.gt amount Number.zero
    then
      if String.eqb toValue fromValue
      then (Normal None,
            snd (displayResult (Num amount) toValue fromValue Number.one None
                   (exchanged st)))
      else (Normal (Some (AwaitLatest toValue fromValue amount)),
            set_fetched
              (set_convertBtn_disabled
                 (set_resultsContent (exchanged st) (Spinner "Converting...")) true)
              (fetched st ++ [latestUrl amount toValue fromValue]))
    else (Normal None,
          set_resultsContent (exchanged st)
            (ErrorMessage "Please fill in all fields with valid values.")).
Proof.
  intros Hf Ht Hof Hot Ha Hl fromValue toValue amount.
  assert (Vf : Select.value (fromCurrency (exchanged st)) = toValue)
    by (apply value_setValue, Hof).
  assert (Vt : Select.value (toCurrency (exchanged st)) = fromValue)
    by (apply value_setValue, Hot).
  assert (Hsw := swapCurrencies_unfold st last Hf Ht Ha Hl).
  repeat split; auto.
  rewrite Hsw.
  assert (Hpre : precondition (exchanged st) = Number.gt amount Number.zero).
  { unfold precondition. rewrite Vf, Vt.
    apply truthy_nonempty in Hf, Ht. fold fromValue in Hf. fold toValue in Ht.
    rewrite Hf, Ht. reflexivity. }
  destruct (Number.gt amount Number.zero) eqn:Hpos.
  - destruct (String.eqb_spec toValue fromValue) as [Eq | Ne].
    + rewrite performConversion_identity by (auto; congruence).
      rewrite Vf, Vt. reflexivity.
    + rewrite performConversion_request by (auto; congruence).
      rewrite Vf, Vt. reflexivity.
  - rewrite performConversion_invalid by auto. reflexivity.
Qed.

(** C10: with an empty selection on either side, [swapCurrencies]
    returns with the object exactly as it was: no selection moved,
    nothing fetched, nothing shown. *)
Theorem swap_with_empty_selection_is_noop (st : CurrencyConverter) :
  Select.value (fromCurrency st) = "" \/ Select.value (toCurrency st) = "" ->
  swapCurrencies st = (Normal None, st).
Proof.
  intro Hempty. unfold swapCurrencies, bind, gets.
  destruct Hempty as [E | E]; apply falsy_empty in E; rewrite E.
  - reflexivity.
  - rewrite andb_false_r. reflexivity.
Qed.

End Form.

(** ** The catalog, the slot of the last conversion, and formatting *)

Section Catalog.

Context {rt : Host}.

(** C7: when the catalog request fails in transport, comes back with
    a status that is not a success status, or has no readable body,
    [loadCurrencies] completes normally, shows the failed-to-load
    message and does not touch the selectors: selectors that held
    only the placeholder option hold only the placeholder option. *)
Theorem failed_catalog_load_is_reported
    (st : CurrencyConverter) (r : fetch_outcome CatalogBody) :
  r = NetworkFailure
  \/ (exists status json, r = Response status json /\ ok status = false)
  \/ (exists status, r = Response status None) ->
  options (fromCurrency st) = [Select.placeholder] ->
  options (toCurrency st) = [Select.placeholder] ->
  exists st',
    loadCurrencies_resume r st = (Normal tt, st') /\
    resultsContent st'
    = ErrorMessage "Failed to load currencies. Please refresh the page." /\
    fromCurrency st' = fromCurrency st /\
    toCurrency st' = toCurrency st /\
    options (fromCurrency st') = [Select.placeholder] /\
    options (toCurrency st') = [Select.placeholder].
Proof.
  intros Hfail Hf Ht.
  assert (Hthrow : exists e, loadCurrencies_try r st = (Throw e, st)).
  { unfold loadCurrencies_try.
    destruct Hfail as [E | [(status & json & E & Hs) | (status & E)]]; subst r.
    - eexists. reflexivity.
    - rewrite Hs. eexists. reflexivity.
    - destruct (negb (ok status)); eexists; reflexivity. }
  destruct Hthrow as [e E].
  unfold loadCurrencies_resume, try_catch. rewrite E.
  eexists. repeat split; assumption.
Qed.

Lemma populate_fold_keeps_slot entries st :
  lastConversion
    (fold_left
       (fun st '(code, name) =>
          let option1 := Option (code ++ " - " ++ name) code in
          let option2 := Option (code ++ " - " ++ name) code in
          set_toCurrency
            (set_fromCurrency st (Select.appendChild option1 (fromCurrency st)))
            (Select.appendChild option2 (toCurrency st)))
       entries st)
  = lastConversion st.
Proof.
  revert st. induction entries as [ | [code name] entries IH]; intro st; simpl.
  - reflexivity.
  - rewrite IH. reflexivity.
Qed.

Lemma populateCurrencyDropdowns_keeps_slot :
  preserves lastConversion populateCurrencyDropdowns.
Proof.
  unfold populateCurrencyDropdowns.
  apply preserves_bind; [frame | intro entries].
  apply preserves_bind; [frame | intros _].
  apply preserves_bind; [frame | intros _].
  apply preserves_modify. intro st. apply populate_fold_keeps_slot.
Qed.

Lemma setDefaultCurrencies_keeps_slot :
  preserves lastConversion setDefaultCurrencies.
Proof.
  unfold setDefaultCurrencies.
  apply preserves_bind; [ | intros _; apply preserves_bind; [ | intros _; frame]];
    apply preserves_modify; intro st;
    match goal with |- context [if ?b then _ else _] => destruct b end;
    reflexivity.
Qed.

Lemma loadCurrencies_resume_keeps_slot r :
  preserves lastConversion (loadCurrencies_resume r).
Proof.
  unfold loadCurrencies_resume, loadCurrencies_try.
  apply preserves_try_catch; [ | intro e; frame].
  destruct r as [ | status [body | ]]; [frame | | destruct (negb (ok status)); frame].
  destruct (negb (ok status)); [frame | ].
  apply preserves_bind; [frame | intros _].
  apply preserves_bind; [apply populateCurrencyDropdowns_keeps_slot | intros _].
  apply preserves_bind; [apply setDefaultCurrencies_keeps_slot | intros _].
  frame.
Qed.

(** Without rates in the answer the [try] block throws at once *)
Lemma performConversion_try_no_rates f t a r st :
  deliversRates r = false ->
  exists e, performConversion_try f t a r st = (Throw e, st).
Proof.
  unfold deliversRates, performConversion_try.
  destruct r as [ | status [data | ]].
  - eexists; reflexivity.
  - destruct (ok status); simpl.
    + destruct (rates data); [discriminate | eexists; reflexivity].
    + eexists; reflexivity.
  - destruct (negb (ok status)); eexists; reflexivity.
Qed.

Lemma performConversion_resume_keeps_slot f t a r st :
  deliversRates r = false ->
  lastConversion (snd (performConversion_resume f t a r st)) = lastConversion st.
Proof.
  intro Hr. destruct (performConversion_try_no_rates f t a r st Hr) as [e E].
  unfold performConversion_resume, try_finally, try_catch. rewrite E.
  reflexivity.
Qed.

Lemma object_started pg c :
  object (started pg c) = snd c.
Proof.
  destruct c as [[[p | ] | e] st]; reflexivity.
Qed.

Lemma step_keeps_slot pg ev :
  isLatestSuccess ev = false ->
  lastConversion (object (step pg ev)) = lastConversion (object pg).
Proof.
  intro Hev. destruct ev as [ | | typed | i | i | r | n r]; simpl.
  - rewrite object_started. apply performConversion_keeps_slot.
  - rewrite object_started. apply swapCurrencies_keeps_slot.
  - reflexivity.
  - reflexivity.
  - reflexivity.
  - destruct (awaitsCurrencies (jobs pg)); [ | reflexivity].
    simpl. apply loadCurrencies_resume_keeps_slot.
  - destruct (nth_error (jobs pg) n) as [[ | f t a] | ]; try reflexivity.
    simpl. apply performConversion_resume_keeps_slot. exact Hev.
Qed.

Lemma run_keeps_slot events pg :
  forallb (fun ev => negb (isLatestSuccess ev)) events = true ->
  lastConversion (object (run pg events)) = lastConversion (object pg).
Proof.
  unfold run. revert pg.
  induction events as [ | ev events IH]; intros pg Hall; simpl in *.
  - reflexivity.
  - apply andb_true_iff in Hall. destruct Hall as [Hev Hall].
    apply negb_true_iff in Hev.
    rewrite IH by exact Hall.
    apply step_keeps_slot, Hev.
Qed.

(** C5: [lastConversion] is null on the loaded page and stays null
    for as long as no conversion request has been answered with
    rates; an answer with c under [rates[toCurrency]] puts the
    request and the rate c / amount there; the part of
    [performConversion] that runs before the request, the identity
    conversion included, leaves the slot as it was. *)
Theorem lastConversion_written_by_answered_request
    (fromSelect toSelect : HTMLSelect) (typed : string) (disabled : bool)
    (shown : display) (events : list event)
    (st : CurrencyConverter) (f t : string) (a : Number.t)
    (status : Z) (data : LatestBody) (members : list (string * Number.t))
    (c : Number.t) :
  forallb (fun ev => negb (isLatestSuccess ev)) events = true ->
  ok status = true ->
  rates data = Some members ->
  lookup t members = Some c ->
  lastConversion
    (object (run (loaded fromSelect toSelect typed disabled shown) events))
  = None /\
  lastConversion
    (snd (performConversion_resume f t a (Response status (Some data)) st))
  = Some {| conv_fromCurrency := f; conv_toCurrency := t;
            conv_amount := a; conv_rate := Number.div c a |} /\
  lastConversion (snd (performConversion st)) = lastConversion st.
Proof.
  intros Hev Hok Hr Hc. repeat split.
  - rewrite run_keeps_slot by exact Hev. reflexivity.
  - unfold performConversion_resume, try_finally, try_catch.
    rewrite (performConversion_try_success st f t a status data members c Hok Hr Hc).
    reflexivity.
  - apply performConversion_keeps_slot.
Qed.

Lemma prefix_app s t : String.prefix s (s ++ t) = true.
Proof.
  induction s as [ | c s IH]; simpl.
  - destruct t; reflexivity.
  - destruct (ascii_dec c c) as [_ | N]; [exact IH | now elim N].
Qed.

Lemma includes_of_prefix s sub :
  String.prefix sub s = true -> Str.includes s sub = true.
Proof.
  intro E. destruct s as [ | c s].
  - change (Str.includes "" sub) with (String.prefix sub "" || false).
    rewrite E. reflexivity.
  - change (Str.includes (String c s) sub)
      with (String.prefix sub (String c s) || Str.includes s sub).
    rewrite E. reflexivity.
Qed.

Lemma includes_app_left p s sub :
  Str.includes s sub = true -> Str.includes (p ++ s) sub = true.
Proof.
  intro E. induction p as [ | c p IH].
  - exact E.
  - change (Str.includes (String c p ++ s) sub)
      with (String.prefix sub (String c (p ++ s)) || Str.includes (p ++ s) sub).
    rewrite IH. apply orb_true_r.
Qed.

(** C9: [formatCurrency] returns a string for every amount that is a
    number and every code.  When the formatter rejects the code, the
    string is the code, a space and the amount with two decimals, so
    for amount 5 it is the code followed by [ 5.00] and has the code
    and [5.00] in it, and an undefined amount makes [toFixed] throw a
    TypeError.  When the formatter takes the code, the string is the
    formatter's, for every amount, and there is no fall back. *)
Theorem formatCurrency_falls_back
    (amount : Number.t) (v : value) (currencyCode : string) :
  (exists s, formatCurrency (Num amount) currencyCode = Normal s) /\
  (Intl_NumberFormat currencyCode = None ->
   formatCurrency (Num amount) currencyCode
   = Normal (currencyCode ++ " " ++ toFixed amount 2) /\
   formatCurrency (Num (Number.of_Z 5)) currencyCode
   = Normal (currencyCode ++ " 5.00") /\
   Str.includes (currencyCode ++ " 5.00") currencyCode = true /\
   Str.includes (currencyCode ++ " 5.00") "5.00" = true /\
   formatCurrency Undefined currencyCode = Throw TypeError) /\
  (forall format,
     Intl_NumberFormat currencyCode = Some format ->
     formatCurrency v currencyCode = Normal (format (ToNumber v))).
Proof.
  split; [ | split].
  - rewrite formatCurrency_number. eauto.
  - intro Hcode. unfold formatCurrency. rewrite Hcode. repeat split.
    + apply includes_of_prefix, prefix_app.
    + apply includes_app_left. reflexivity.
  - intros format Hcode. unfold formatCurrency. rewrite Hcode. reflexivity.
Qed.

End Catalog.

(** ** The theorems on the sample page *)

Module Runs.

Import Sample.

Lemma identity_conversion_is_local_witness :
  exists st',
    performConversion (rt := host) sameCurrency = (Normal None, st') /\
    resultsContent st'
    = ConversionResult "USD 10.00" (parseFloat "10") "USD" "USD 1.00" "US Dollar" /\
    fetched st' = fetched sameCurrency.
Proof.
  destruct (identity_conversion_is_local (rt := host) sameCurrency "USD"
              (parseFloat "10"))
    as (st' & E & _ & D & F);
    [reflexivity | reflexivity | discriminate | reflexivity | reflexivity | ].
  exists st'. repeat split; assumption.
Defined.

Lemma rate_is_exact_quotient_witness :
  exists st',
    performConversion_resume (rt := host) "USD" "EUR" (parseFloat "10") answer
      (object submitted)
    = (Normal tt, st') /\
    lastConversion st'
    = Some {| conv_fromCurrency := "USD"; conv_toCurrency := "EUR";
              conv_amount := parseFloat "10";
              conv_rate := Number.div (parseFloat "9.2") (parseFloat "10") |}.
Proof.
  destruct (rate_is_exact_quotient (rt := host) (object submitted) "USD" "EUR"
              (parseFloat "10") 200 {| rates := Some [("EUR", parseFloat "9.2")] |}
              [("EUR", parseFloat "9.2")] (parseFloat "9.2"))
    as (st' & E & L & _); [reflexivity | reflexivity | reflexivity | ].
  exists st'. split; assumption.
Defined.

(** With [1e999] in the amount field, which parses to Infinity, the
    button is enabled although the parsed amount is not finite *)
Lemma validateForm_accepts_overflow :
  ~ (convertBtn_disabled (snd (validateForm (object (typed "1e999")))) = false <->
       Select.value (fromCurrency (object (typed "1e999"))) <> "" /\
       Select.value (toCurrency (object (typed "1e999"))) <> "" /\
       amountInput (object (typed "1e999")) <> "" /\
       Number.isFinite (parseFloat (amountInput (object (typed "1e999")))) = true /\
       Number.gt (parseFloat (amountInput (object (typed "1e999")))) Number.zero
       = true).
Proof.
  intros [Hvalid _].
  assert (Henabled :
            convertBtn_disabled (snd (validateForm (object (typed "1e999")))) = false)
    by (vm_compute; reflexivity).
  destruct (Hvalid Henabled) as (_ & _ & _ & Hfinite & _).
  vm_compute in Hfinite. discriminate Hfinite.
Qed.

(** Before any conversion has succeeded, swap on USD, EUR, 10 moves
    the selections and sends nothing *)
Lemma swap_before_any_conversion :
  ~ (Select.value (fromCurrency fresh) <> "" ->
     Select.value (toCurrency fresh) <> "" ->
     amountInput fresh <> "" ->
     fetched (snd (swapCurrencies (rt := host) fresh))
     = (fetched fresh ++ [latestUrl (rt := host) (parseFloat "10") "EUR" "USD"])%list).
Proof.
  intro Hclaim.
  assert (E : fetched (snd (swapCurrencies (rt := host) fresh)) = fetched fresh)
    by reflexivity.
  rewrite E in Hclaim.
  specialize (Hclaim ltac:(discriminate) ltac:(discriminate) ltac:(discriminate)).
  discriminate Hclaim.
Qed.

Lemma swap_reissues_after_a_conversion_witness :
  exists st',
    swapCurrencies (rt := host) converted
    = (Normal (Some (AwaitLatest "EUR" "USD" (parseFloat "10"))), st') /\
    Select.value (fromCurrency st') = "EUR" /\
    Select.value (toCurrency st') = "USD" /\
    fetched st'
    = (fetched converted
         ++ ["https://api.frankfurter.app/latest?amount=10&from=EUR&to=USD"])%list.
Proof.
  destruct (swap_reissues_after_a_conversion (rt := host) converted
              {| conv_fromCurrency := "USD"; conv_toCurrency := "EUR";
                 conv_amount := parseFloat "10";
                 conv_rate := Number.div (parseFloat "9.2") (parseFloat "10") |})
    as (_ & _ & _ & _ & E);
    [discriminate | discriminate | reflexivity | reflexivity | discriminate
    | reflexivity | ].
  rewrite E. eexists. repeat split.
Defined.

(** An identity conversion shows its result and leaves the slot null *)
Lemma identity_conversion_is_not_recorded :
  resultsContent (snd (performConversion (rt := host) sameCurrency))
  = ConversionResult "USD 10.00" (parseFloat "10") "USD" "USD 1.00" "US Dollar" /\
  lastConversion (snd (performConversion (rt := host) sameCurrency))
  <> Some {| conv_fromCurrency := "USD"; conv_toCurrency := "USD";
             conv_amount := parseFloat "10"; conv_rate := Number.one |}.
Proof.
  split; [reflexivity | discriminate].
Qed.

Lemma lastConversion_written_by_answered_request_witness :
  lastConversion
    (object (run (rt := host) (loaded emptySelect emptySelect "" true (Markup ""))
               [CurrenciesArrive (Response 200 (Some catalog));
                TypeAmount "10"; Submit; LatestArrives 0 NetworkFailure;
                ChooseTo 2; Submit; ClickSwap]))
  = None /\
  lastConversion
    (snd (performConversion_resume (rt := host) "USD" "EUR" (parseFloat "10")
            answer sameCurrency))
  = Some {| conv_fromCurrency := "USD"; conv_toCurrency := "EUR";
            conv_amount := parseFloat "10";
            conv_rate := Number.div (parseFloat "9.2") (parseFloat "10") |} /\
  lastConversion (snd (performConversion (rt := host) sameCurrency))
  = lastConversion sameCurrency.
Proof.
  apply (lastConversion_written_by_answered_request (rt := host)
           emptySelect emptySelect "" true (Markup "")
           [CurrenciesArrive (Response 200 (Some catalog));
            TypeAmount "10"; Submit; LatestArrives 0 NetworkFailure;
            ChooseTo 2; Submit; ClickSwap]
           _ _ _ _ 200 {| rates := Some [("EUR", parseFloat "9.2")] |}
           [("EUR", parseFloat "9.2")] (parseFloat "9.2"));
    reflexivity.
Defined.

Lemma failed_conversion_is_reported_witness :
  exists st',
    performConversion_resume (rt := host) "USD" "EUR" (parseFloat "10")
      (Response 500 None) (object submitted)
    = (Normal tt, st') /\
    resultsContent st'
    = ErrorMessage "Failed to convert currency. Please try again." /\
    lastConversion st' = lastConversion (object submitted).
Proof.
  apply (failed_conversion_is_reported (rt := host)).
  right. left. exists 500, None. split; reflexivity.
Defined.

Lemma failed_catalog_load_is_reported_witness :
  exists st',
    loadCurrencies_resume (rt := host) NetworkFailure unloaded = (Normal tt, st') /\
    resultsContent st'
    = ErrorMessage "Failed to load currencies. Please refresh the page." /\
    fromCurrency st' = fromCurrency unloaded /\
    toCurrency st' = toCurrency unloaded /\
    options (fromCurrency st') = [Select.placeholder] /\
    options (toCurrency st') = [Select.placeholder].
Proof.
  apply (failed_catalog_load_is_reported (rt := host));
    [left; reflexivity | reflexivity | reflexivity].
Defined.

Lemma no_request_without_precondition_witness :
  exists st',
    performConversion (rt := host) (object (typed "abc")) = (Normal None, st') /\
    fetched st' = fetched (object (typed "abc")) /\
    resultsContent st'
    = ErrorMessage "Please fill in all fields with valid values.".
Proof.
  apply (no_request_without_precondition (rt := host)).
  right. right. reflexivity.
Defined.

(** The code XXX is well formed, so the formatter takes it and the
    fall back is not reached: the string has no XXX in it.  And on a
    code that is not well formed an undefined amount throws. *)
Lemma formatCurrency_formats_XXX :
  ~ (exists s,
       formatCurrency (rt := Ecma402.host) (Num (Number.of_Z 5)) "XXX" = Normal s /\
       Str.includes s "XXX" = true /\
       Str.includes s "5.00" = true)
  /\ formatCurrency (rt := Ecma402.host) Undefined "US" = Throw TypeError.
Proof.
  split; [ | reflexivity].
  intros (s & E & Hcode & _).
  assert (F : formatCurrency (rt := Ecma402.host) (Num (Number.of_Z 5)) "XXX"
              = Normal (Ecma402.currencySign ++ "5.00"))
    by (vm_compute; reflexivity).
  rewrite F in E. injection E as <-.
  vm_compute in Hcode. discriminate Hcode.
Qed.

Lemma formatCurrency_falls_back_witness :
  formatCurrency (rt := Ecma402.host) (Num (parseFloat "1234.5")) "US"
  = Normal "US 1234.50" /\
  formatCurrency (rt := Ecma402.host) (Num (Number.of_Z 5)) "US" = Normal "US 5.00" /\
  Str.includes "US 5.00" "US" = true /\
  Str.includes "US 5.00" "5.00" = true /\
  formatCurrency (rt := Ecma402.host) (Num (parseFloat "1234.5")) "ABC"
  = Normal (Ecma402.format "ABC" (parseFloat "1234.5")).
Proof.
  destruct (formatCurrency_falls_back (rt := Ecma402.host) (parseFloat "1234.5")
              (Num (parseFloat "1234.5")) "US")
    as (_ & Hrejected & _).
  destruct (Hrejected eq_refl) as (E & E5 & I1 & I2 & _).
  destruct (formatCurrency_falls_back (rt := Ecma402.host) (parseFloat "1234.5")
              (Num (parseFloat "1234.5")) "ABC")
    as (_ & _ & Haccepted).
  refine (conj E (conj E5 (conj I1 (conj I2 _)))).
  apply (Haccepted (Ecma402.format "ABC")). reflexivity.
Defined.

Lemma swap_with_empty_selection_is_noop_witness :
  swapCurrencies (rt := host) unloaded = (Normal None, unloaded).
Proof.
  apply (swap_with_empty_selection_is_noop (rt := host)).
  left. reflexivity.
Defined.

End Runs.


(** ** Loading the catalog: sorting and filling the selectors *)

Section Populate.

Context {rt : Host}.

Lemma insertEntry_perm e l : Permutation (insertEntry e l) (e :: l).
Proof.
  induction l as [ | x l IH]; simpl.
  - reflexivity.
  - destruct (localeCompare (fst e) (fst x) <? 0).
    + reflexivity.
    + etransitivity; [apply perm_skip, IH | apply perm_swap].
Qed.

Lemma fold_insertEntry_perm l acc :
  Permutation (fold_left (fun sorted e => insertEntry e sorted) l acc) (l ++ acc).
Proof.
  revert acc. induction l as [ | a l IH]; intro acc; simpl.
  - reflexivity.
  - rewrite IH. rewrite (insertEntry_perm a acc). symmetry. apply Permutation_middle.
Qed.

Lemma sortEntries_perm entries : Permutation (sortEntries entries) entries.
Proof.
  unfold sortEntries. rewrite fold_insertEntry_perm, app_nil_r. reflexivity.
Qed.

(** X1: sorting the entries of the catalog loses and repeats nothing,
    whatever the comparator answers: every entry is in the sorted list
    as often as it is in the catalog. *)
Theorem sortEntries_permutation (entries : list (string * string)) :
  Permutation (sortEntries entries) entries /\
  List.length (sortEntries entries) = List.length entries /\
  (forall e, In e (sortEntries entries) <-> In e entries).
Proof.
  pose proof (sortEntries_perm entries) as P. repeat split.
  - exact P.
  - apply Permutation_length, P.
  - apply Permutation_in, P.
  - apply Permutation_in. symmetry. exact P.
Qed.

Lemma insertEntry_HdRel x e l :
  inOrder x e -> HdRel inOrder x l -> HdRel inOrder x (insertEntry e l).
Proof.
  intros Hxe Hxl. destruct l as [ | y l]; simpl.
  - constructor. exact Hxe.
  - destruct (localeCompare (fst e) (fst y) <? 0); constructor.
    + exact Hxe.
    + inversion Hxl; assumption.
Qed.

Lemma insertEntry_sorted e l :
  (forall a b, (localeCompare a b <? 0) = true -> (localeCompare b a <? 0) = false) ->
  Sorted inOrder l -> Sorted inOrder (insertEntry e l).
Proof.
  intros Hasym Hs. induction l as [ | x l IH]; simpl.
  - repeat constructor.
  - destruct (localeCompare (fst e) (fst x) <? 0) eqn:E.
    + constructor; [exact Hs | ]. constructor. apply Hasym, E.
    + inversion Hs as [ | ? ? Hl Hx]; subst.
      constructor; [apply IH, Hl | ].
      apply insertEntry_HdRel; [exact E | exact Hx].
Qed.

(** X2: when the comparator never puts each of two codes before the
    other, the sorted entries are in order: no entry is followed by
    one that the comparator puts before it. *)
Theorem sortEntries_sorted (entries : list (string * string)) :
  (forall a b, (localeCompare a b <? 0) = true -> (localeCompare b a <? 0) = false) ->
  Sorted inOrder (sortEntries entries).
Proof.
  intro Hasym. unfold sortEntries.
  assert (G : forall l acc, Sorted inOrder acc ->
            Sorted inOrder (fold_left (fun sorted e => insertEntry e sorted) l acc)).
  { induction l as [ | a l IH]; intros acc Hacc; simpl.
    - exact Hacc.
    - apply IH, insertEntry_sorted; assumption. }
  apply G. constructor.
Qed.

Lemma populate_fold entries st :
  fold_left
    (fun st '(code, name) =>
       let option1 := Option (code ++ " - " ++ name) code in
       let option2 := Option (code ++ " - " ++ name) code in
       set_toCurrency
         (set_fromCurrency st (Select.appendChild option1 (fromCurrency st)))
         (Select.appendChild option2 (toCurrency st)))
    entries st
  = set_toCurrency
      (set_fromCurrency st
         (fold_left (fun s e => Select.appendChild (optionOf e) s) entries
            (fromCurrency st)))
      (fold_left (fun s e => Select.appendChild (optionOf e) s) entries
         (toCurrency st)).
Proof.
  revert st. induction entries as [ | [code name] entries IH]; intro st; simpl.
  - destruct st; reflexivity.
  - rewrite IH. reflexivity.
Qed.

Lemma fold_appendChild entries s i :
  selectedIndex s = Some i ->
  fold_left (fun s e => Select.appendChild (optionOf e) s) entries s
  = {| options := options s ++ map optionOf entries; selectedIndex := Some i |}.
Proof.
  revert s. induction entries as [ | e entries IH]; intros s Hs; simpl.
  - destruct s; simpl in *. subst. rewrite app_nil_r. reflexivity.
  - rewrite (IH (Select.appendChild (optionOf e) s)).
    + simpl. rewrite <- app_assoc. reflexivity.
    + simpl. rewrite Hs. reflexivity.
Qed.

Lemma populateCurrencyDropdowns_run st :
  populateCurrencyDropdowns st = (Normal tt, withOptions st).
Proof.
  unfold populateCurrencyDropdowns, bind, gets, modify. simpl.
  rewrite populate_fold. simpl.
  rewrite !(fold_appendChild _ Select.reset O) by reflexivity.
  reflexivity.
Qed.

(** X3: [populateCurrencyDropdowns] gives both selectors the same
    list, the placeholder followed by one option per catalog entry in
    sorted order with text [code - name] and value [code], and selects
    the placeholder in both, whatever was selected before. *)
Theorem populateCurrencyDropdowns_fills_both (st : CurrencyConverter) :
  exists st',
    populateCurrencyDropdowns st = (Normal tt, st') /\
    fromCurrency st' = populated (sortEntries (currencies st)) /\
    toCurrency st' = populated (sortEntries (currencies st)) /\
    Select.value (fromCurrency st') = "" /\
    Select.value (toCurrency st') = "" /\
    currencies st' = currencies st /\
    amountInput st' = amountInput st /\
    lastConversion st' = lastConversion st.
Proof.
  rewrite populateCurrencyDropdowns_run. eexists. repeat split.
Qed.

Lemma indexOf_In v l i :
  (exists j, Select.indexOf v l i = Some j) <-> In v (map optionValue l).
Proof.
  revert i. induction l as [ | o l IH]; intro i; simpl.
  - split; [intros [j E]; discriminate | intros []].
  - destruct (String.eqb_spec (optionValue o) v) as [E | N].
    + split; [auto | eauto].
    + rewrite IH. split; [auto | intros [E | I]; [contradiction | exact I]].
Qed.

Lemma offers_In v s :
  Select.offers v s = true <-> In v (map optionValue (options s)).
Proof.
  rewrite <- (indexOf_In v (options s) 0). unfold Select.offers.
  destruct (Select.indexOf v (options s) 0) as [j | ].
  - split; eauto.
  - split; [discriminate | intros [j E]; discriminate].
Qed.

Lemma optionValue_optionOf entries :
  map optionValue (map optionOf entries) = map fst entries.
Proof.
  rewrite map_map. apply map_ext. intros [code name]. reflexivity.
Qed.

Lemma populated_offers v entries :
  Select.offers v (populated (sortEntries entries)) = true <->
  v = "" \/ In v (map fst entries).
Proof.
  rewrite offers_In. simpl. rewrite optionValue_optionOf.
  assert (P : Permutation (map fst (sortEntries entries)) (map fst entries))
    by apply Permutation_map, sortEntries_perm.
  split; (intros [E | I]; [left; auto | right]).
  - eapply Permutation_in; [exact P | exact I].
  - eapply Permutation_in; [symmetry; exact P | exact I].
Qed.

Lemma lookup_In {A} key (entries : list (string * A)) v :
  lookup key entries = Some v -> In key (map fst entries).
Proof.
  induction entries as [ | [k x] entries IH]; simpl; [discriminate | ].
  destruct (String.eqb_spec k key) as [E | N]; auto.
Qed.

Lemma hasCurrency_In st code :
  hasCurrency st code = true -> In code (map fst (currencies st)).
Proof.
  unfold hasCurrency. destruct (lookup code (currencies st)) as [name | ] eqn:E;
    [intros _; eapply lookup_In, E | discriminate].
Qed.

Lemma setDefaultCurrencies_run st :
  setDefaultCurrencies st = (Normal tt, snd (validateForm (withDefaults st))).
Proof. reflexivity. Qed.

Lemma loadCurrencies_resume_success st status body :
  ok status = true ->
  loadCurrencies_resume (Response status (Some body)) st
  = (Normal tt,
     snd (validateForm (withDefaults (withOptions (set_currencies st body))))).
Proof.
  intro Hok. unfold loadCurrencies_resume, try_catch, loadCurrencies_try.
  rewrite Hok. change (negb true) with false. cbv beta iota.
  unfold bind at 1. unfold modify at 1.
  unfold bind at 1. rewrite populateCurrencyDropdowns_run.
  unfold bind at 1. rewrite setDefaultCurrencies_run. reflexivity.
Qed.

End Populate.

Section CatalogLoaded.

Context {rt : Host}.

Lemma withDefaults_from st :
  fromCurrency (withDefaults st)
  = if hasCurrency st "USD"
    then Select.setValue "USD" (fromCurrency st)
    else fromCurrency st.
Proof.
  unfold withDefaults. destruct (hasCurrency st "USD"); cbv zeta;
    match goal with |- context [if ?b then _ else _] => destruct b end;
    reflexivity.
Qed.

Lemma withDefaults_to st :
  toCurrency (withDefaults st)
  = if hasCurrency st "EUR"
    then Select.setValue "EUR" (toCurrency st)
    else toCurrency st.
Proof.
  unfold withDefaults. destruct (hasCurrency st "USD"); cbv zeta.
  - change (hasCurrency (set_fromCurrency st (Select.setValue "USD" (fromCurrency st)))
              "EUR") with (hasCurrency st "EUR").
    destruct (hasCurrency st "EUR"); reflexivity.
  - destruct (hasCurrency st "EUR"); reflexivity.
Qed.

Lemma withDefaults_frame st :
  currencies (withDefaults st) = currencies st /\
  lastConversion (withDefaults st) = lastConversion st /\
  amountInput (withDefaults st) = amountInput st /\
  resultsContent (withDefaults st) = resultsContent st /\
  fetched (withDefaults st) = fetched st /\
  console (withDefaults st) = console st /\
  options (fromCurrency (withDefaults st)) = options (fromCurrency st) /\
  options (toCurrency (withDefaults st)) = options (toCurrency st).
Proof.
  unfold withDefaults. destruct (hasCurrency st "USD"); cbv zeta.
  - change (hasCurrency (set_fromCurrency st (Select.setValue "USD" (fromCurrency st)))
              "EUR") with (hasCurrency st "EUR").
    destruct (hasCurrency st "EUR"); repeat split.
  - destruct (hasCurrency st "EUR"); repeat split.
Qed.

(** X4: after the catalog has loaded, each selector offers the empty
    value of the placeholder and the codes of the catalog, and no
    other value. *)
Theorem loaded_selectors_offer_the_catalog
    (st : CurrencyConverter) (status : Z) (body : CatalogBody) (v : string) :
  ok status = true ->
  (Select.offers v
     (fromCurrency (snd (loadCurrencies_resume (Response status (Some body)) st)))
   = true <-> v = "" \/ In v (map fst body))
  /\ (Select.offers v
        (toCurrency (snd (loadCurrencies_resume (Response status (Some body)) st)))
      = true <-> v = "" \/ In v (map fst body)).
Proof.
  intro Hok. rewrite (loadCurrencies_resume_success st status body Hok).
  destruct (withDefaults_frame (withOptions (set_currencies st body)))
    as (_ & _ & _ & _ & _ & _ & Hf & Ht).
  rewrite !offers_In. simpl snd.
  change (options (fromCurrency (set_convertBtn_disabled ?s ?b)))
    with (options (fromCurrency s)).
  unfold validateForm, modify. simpl snd.
  change (fromCurrency (set_convertBtn_disabled ?s ?b)) with (fromCurrency s).
  change (toCurrency (set_convertBtn_disabled ?s ?b)) with (toCurrency s).
  rewrite Hf, Ht. rewrite <- !offers_In.
  split; apply (populated_offers v body).
Qed.

(** X5: after the catalog has loaded, the source selector is on USD
    when the catalog names USD and on the placeholder otherwise, the
    target selector likewise for EUR, and the button is disabled
    exactly when the form is not valid. *)
Theorem loaded_defaults
    (st : CurrencyConverter) (status : Z) (body : CatalogBody) :
  ok status = true ->
  let st' := snd (loadCurrencies_resume (Response status (Some body)) st) in
  Select.value (fromCurrency st')
  = match lookup "USD" body with
    | Some name => if Str.truthy name then "USD" else ""
    | None => ""
    end /\
  Select.value (toCurrency st')
  = match lookup "EUR" body with
    | Some name => if Str.truthy name then "EUR" else ""
    | None => ""
    end /\
  currencies st' = body /\
  amountInput st' = amountInput st /\
  convertBtn_disabled st' = negb (isValid st').
Proof.
  intros Hok st'. subst st'.
  rewrite (loadCurrencies_resume_success st status body Hok).
  set (st2 := withOptions (set_currencies st body)).
  destruct (withDefaults_frame st2) as (Hc & _ & Ha & _).
  unfold validateForm, modify. simpl snd.
  change (fromCurrency (set_convertBtn_disabled ?s ?b)) with (fromCurrency s).
  change (toCurrency (set_convertBtn_disabled ?s ?b)) with (toCurrency s).
  change (currencies (set_convertBtn_disabled ?s ?b)) with (currencies s).
  change (amountInput (set_convertBtn_disabled ?s ?b)) with (amountInput s).
  rewrite withDefaults_from, withDefaults_to, Hc, Ha.
  assert (Hhas : forall code,
            hasCurrency st2 code
            = match lookup code body with
              | Some name => Str.truthy name
              | None => false
              end) by reflexivity.
  repeat split.
  - rewrite Hhas. destruct (lookup "USD" body) as [name | ] eqn:E; [ | reflexivity].
    destruct (Str.truthy name); [ | reflexivity].
    apply value_setValue. apply (populated_offers "USD" body).
    right. eapply lookup_In, E.
  - rewrite Hhas. destruct (lookup "EUR" body) as [name | ] eqn:E; [ | reflexivity].
    destruct (Str.truthy name); [ | reflexivity].
    apply value_setValue. apply (populated_offers "EUR" body).
    right. eapply lookup_In, E.
Qed.

(** X6: [hideLoading] does nothing, so when the catalog has loaded the
    results region still shows the loading message that
    [loadCurrencies] put there. *)
Theorem loading_message_stays
    (fromSelect toSelect : HTMLSelect) (typed : string) (disabled : bool)
    (shown : display) (status : Z) (body : CatalogBody) :
  ok status = true ->
  resultsContent
    (object (run (loaded fromSelect toSelect typed disabled shown)
               [CurrenciesArrive (Response status (Some body))]))
  = Spinner "Loading currencies...".
Proof.
  intro Hok. simpl.
  rewrite (loadCurrencies_resume_success _ status body Hok).
  unfold validateForm, modify. simpl.
  match goal with
  | |- resultsContent (withDefaults ?s) = _ =>
      destruct (withDefaults_frame s) as (_ & _ & _ & Hr & _); rewrite Hr
  end.
  reflexivity.
Qed.

End CatalogLoaded.

(** ** What every handler keeps *)

Section Invariants.

Context {rt : Host}.

Lemma swapCurrencies_empty st :
  Select.value (fromCurrency st) = "" \/ Select.value (toCurrency st) = "" ->
  swapCurrencies st = (Normal None, st).
Proof.
  intro Hempty. unfold swapCurrencies, bind, gets.
  destruct Hempty as [E | E]; apply falsy_empty in E; rewrite E.
  - reflexivity.
  - rewrite andb_false_r. reflexivity.
Qed.

(** [performConversion] either writes the results region and returns,
    or has checked the request and sends it *)
Lemma performConversion_shape st :
  (exists d, performConversion st = (Normal None, set_resultsContent st d))
  \/ (checkedRequest (Select.value (fromCurrency st)) (Select.value (toCurrency st))
        (parseFloat (amountInput st)) /\
      performConversion st
      = (Normal (Some (AwaitLatest (Select.value (fromCurrency st))
                         (Select.value (toCurrency st))
                         (parseFloat (amountInput st)))),
         set_fetched
           (set_convertBtn_disabled
              (set_resultsContent st (Spinner "Converting...")) true)
           (fetched st ++
              [latestUrl (parseFloat (amountInput st))
                 (Select.value (fromCurrency st)) (Select.value (toCurrency st))]))).
Proof.
  destruct (precondition st) eqn:E.
  - destruct (String.eqb_spec (Select.value (fromCurrency st))
                (Select.value (toCurrency st))) as [Eq | Ne].
    + left. rewrite (performConversion_identity st E Eq), displayResult_number.
      eexists. reflexivity.
    + right. split; [ | apply (performConversion_request st E Ne)].
      unfold precondition in E. apply andb_true_iff in E. destruct E as [E Hpos].
      apply andb_true_iff in E. destruct E as [Hf Ht].
      apply truthy_nonempty in Hf, Ht. repeat split; assumption.
  - left. rewrite (performConversion_invalid st E). eexists. reflexivity.
Qed.

(** [swapCurrencies] leaves the object alone, or exchanges the
    selections and stops, or exchanges them and converts *)
Lemma swapCurrencies_shape st :
  ((Select.value (fromCurrency st) = "" \/ Select.value (toCurrency st) = "") /\
   swapCurrencies st = (Normal None, st))
  \/ (Select.value (fromCurrency st) <> "" /\ Select.value (toCurrency st) <> "" /\
      (swapCurrencies st = (Normal None, exchanged st)
       \/ swapCurrencies st = performConversion (exchanged st))).
Proof.
  destruct (Str.truthy (Select.value (fromCurrency st))) eqn:Hf;
    [ | left; apply falsy_empty in Hf; split; [left; exact Hf | ];
        apply swapCurrencies_empty; left; exact Hf].
  destruct (Str.truthy (Select.value (toCurrency st))) eqn:Ht;
    [ | left; apply falsy_empty in Ht; split; [right; exact Ht | ];
        apply swapCurrencies_empty; right; exact Ht].
  right. pose proof Hf as Hf'. pose proof Ht as Ht'.
  apply truthy_nonempty in Hf', Ht'. repeat split; try assumption.
  destruct (lastConversion st) as [last | ] eqn:Hl.
  - destruct (Str.truthy (amountInput st)) eqn:Ha.
    + right. apply truthy_nonempty in Ha.
      apply (swapCurrencies_unfold st last Hf' Ht' Ha Hl).
    + left. unfold swapCurrencies, bind, gets, modify. rewrite Hf, Ht.
      change (true && true) with true. cbv beta iota.
      set (st1 := set_toCurrency _ _).
      assert (E1 : st1 = exchanged st) by reflexivity.
      clearbody st1. subst st1.
      change (lastConversion (exchanged st)) with (lastConversion st).
      change (amountInput (exchanged st)) with (amountInput st).
      rewrite Hl, Ha. reflexivity.
  - left. unfold swapCurrencies, bind, gets, modify. rewrite Hf, Ht.
    change (true && true) with true. cbv beta iota.
    set (st1 := set_toCurrency _ _).
    assert (E1 : st1 = exchanged st) by reflexivity.
    clearbody st1. subst st1.
    change (lastConversion (exchanged st)) with (lastConversion st).
    rewrite Hl. reflexivity.
Qed.

Lemma value_offers s v :
  Select.value s = v -> v <> "" -> Select.offers v s = true.
Proof.
  unfold Select.value. intros E Hv. apply offers_In.
  destruct (selectedIndex s) as [i | ]; [ | congruence].
  destruct (nth_error (options s) i) as [o | ] eqn:En; [ | congruence].
  subst v. apply in_map, (nth_error_In _ _ En).
Qed.

Lemma offers_same_options v s1 s2 :
  options s1 = options s2 -> Select.offers v s1 = Select.offers v s2.
Proof. unfold Select.offers. intros ->. reflexivity. Qed.

Lemma exchanged_values st :
  sameOptions st ->
  Select.value (fromCurrency st) <> "" ->
  Select.value (toCurrency st) <> "" ->
  Select.value (fromCurrency (exchanged st)) = Select.value (toCurrency st) /\
  Select.value (toCurrency (exchanged st)) = Select.value (fromCurrency st).
Proof.
  intros Hs Hf Ht. split; apply value_setValue.
  - rewrite (offers_same_options _ _ _ Hs). apply value_offers; auto.
  - rewrite <- (offers_same_options _ _ _ Hs). apply value_offers; auto.
Qed.

Lemma validateForm_enabled st : enabledOnlyIfValid (snd (validateForm st)).
Proof.
  unfold enabledOnlyIfValid, validateForm, modify. simpl. intro E.
  apply negb_false_iff in E. exact E.
Qed.

Lemma performConversion_try_shape st f t a r :
  (exists e, performConversion_try f t a r st = (Throw e, st))
  \/ (exists d rate,
        performConversion_try f t a r st
        = (Normal tt,
           set_lastConversion (set_resultsContent st d)
             (Some {| conv_fromCurrency := f; conv_toCurrency := t;
                      conv_amount := a; conv_rate := rate |}))).
Proof.
  unfold performConversion_try.
  destruct r as [ | status [data | ]]; unfold throw; eauto.
  - destruct (negb (ok status)); eauto.
    destruct (rates data) as [members | ]; eauto.
    unfold bind.
    match goal with
    | |- context [displayResult ?v ?f ?t ?rate ?o ?st] =>
        destruct (displayResult_shape v f t rate o st) as [[d E] | [e E]];
          rewrite E
    end.
    + right. eexists. eexists. reflexivity.
    + left. eexists. reflexivity.
  - destruct (negb (ok status)); eauto.
Qed.

Lemma performConversion_resume_after_throw st f t a r e :
  performConversion_try f t a r st = (Throw e, st) ->
  performConversion_resume f t a r st
  = (Normal tt,
     snd (validateForm
            (set_resultsContent
               (set_console st (console st ++ [("Conversion error:", e)]))
               (ErrorMessage "Failed to convert currency. Please try again.")))).
Proof.
  intro E. unfold performConversion_resume, try_finally, try_catch.
  rewrite E. reflexivity.
Qed.

Lemma performConversion_resume_after_normal st f t a r st1 :
  performConversion_try f t a r st = (Normal tt, st1) ->
  performConversion_resume f t a r st = (Normal tt, snd (validateForm st1)).
Proof.
  intro E. unfold performConversion_resume, try_finally, try_catch.
  rewrite E. reflexivity.
Qed.

Lemma loadCurrencies_resume_failure r st :
  (forall status body, r = Response status (Some body) -> ok status = false) ->
  exists e,
    loadCurrencies_resume r st
    = (Normal tt,
       set_resultsContent
         (set_console st (console st ++ [("Error loading currencies:", e)]))
         (ErrorMessage "Failed to load currencies. Please refresh the page.")).
Proof.
  intro Hr. unfold loadCurrencies_resume, try_catch, loadCurrencies_try.
  destruct r as [ | status [body | ]].
  - eexists. reflexivity.
  - rewrite (Hr status body eq_refl). eexists. reflexivity.
  - destruct (negb (ok status)); eexists; reflexivity.
Qed.

Lemma loadCurrencies_resume_cases r st :
  (exists e,
     loadCurrencies_resume r st
     = (Normal tt,
        set_resultsContent
          (set_console st (console st ++ [("Error loading currencies:", e)]))
          (ErrorMessage "Failed to load currencies. Please refresh the page.")))
  \/ (exists body,
        loadCurrencies_resume r st
        = (Normal tt,
           snd (validateForm (withDefaults (withOptions (set_currencies st body)))))).
Proof.
  destruct r as [ | status [body | ]].
  - left. apply loadCurrencies_resume_failure. discriminate.
  - destruct (ok status) eqn:Hok.
    + right. exists body. apply loadCurrencies_resume_success, Hok.
    + left. apply loadCurrencies_resume_failure. intros ? ? E. congruence.
  - left. apply loadCurrencies_resume_failure. discriminate.
Qed.

(** *** The selectors list the same options; an enabled button means
    a valid form *)

Lemma performConversion_form st :
  sameOptions st -> enabledOnlyIfValid st ->
  sameOptions (snd (performConversion st)) /\
  enabledOnlyIfValid (snd (performConversion st)).
Proof.
  intros Hs He.
  destruct (performConversion_shape st) as [[d E] | [_ E]]; rewrite E; simpl snd.
  - split; assumption.
  - split; [exact Hs | intro H; discriminate H].
Qed.

Lemma exchanged_form st :
  sameOptions st ->
  Select.value (fromCurrency st) <> "" ->
  Select.value (toCurrency st) <> "" ->
  enabledOnlyIfValid st ->
  sameOptions (exchanged st) /\ enabledOnlyIfValid (exchanged st).
Proof.
  intros Hs Hf Ht He. split; [exact Hs | ].
  destruct (exchanged_values st Hs Hf Ht) as [Vf Vt].
  intro Hen. specialize (He Hen).
  unfold isValid in *. rewrite Vf, Vt.
  change (amountInput (exchanged st)) with (amountInput st).
  apply andb_true_iff in He. destruct He as [He Hpos].
  apply andb_true_iff in He. destruct He as [He Ha].
  apply andb_true_iff in He. destruct He as [Hf' Ht'].
  rewrite Hf', Ht', Ha, Hpos. reflexivity.
Qed.

Lemma swapCurrencies_form st :
  sameOptions st -> enabledOnlyIfValid st ->
  sameOptions (snd (swapCurrencies st)) /\
  enabledOnlyIfValid (snd (swapCurrencies st)).
Proof.
  intros Hs He.
  destruct (swapCurrencies_shape st) as [[_ E] | (Hf & Ht & [E | E])]; rewrite E.
  - split; assumption.
  - apply exchanged_form; assumption.
  - destruct (exchanged_form st Hs Hf Ht He). apply performConversion_form; assumption.
Qed.

Lemma choose_options i s : options (choose i s) = options s.
Proof. unfold choose. destruct (Nat.ltb i (List.length (options s))); reflexivity. Qed.

Lemma loadCurrencies_resume_form r st :
  sameOptions st -> enabledOnlyIfValid st ->
  sameOptions (snd (loadCurrencies_resume r st)) /\
  enabledOnlyIfValid (snd (loadCurrencies_resume r st)).
Proof.
  intros Hs He.
  destruct (loadCurrencies_resume_cases r st) as [[e E] | [body E]]; rewrite E.
  - split; assumption.
  - split; [ | apply validateForm_enabled].
    destruct (withDefaults_frame (withOptions (set_currencies st body)))
      as (_ & _ & _ & _ & _ & _ & Hf & Ht).
    unfold sameOptions, validateForm, modify. simpl snd.
    change (fromCurrency (set_convertBtn_disabled ?s ?b)) with (fromCurrency s).
    change (toCurrency (set_convertBtn_disabled ?s ?b)) with (toCurrency s).
    rewrite Hf, Ht. reflexivity.
Qed.

Lemma performConversion_resume_form f t a r st :
  sameOptions st ->
  sameOptions (snd (performConversion_resume f t a r st)) /\
  enabledOnlyIfValid (snd (performConversion_resume f t a r st)).
Proof.
  intro Hs.
  destruct (performConversion_try_shape st f t a r) as [[e E] | (d & rate & E)].
  - rewrite (performConversion_resume_after_throw _ _ _ _ _ _ E).
    split; [exact Hs | apply validateForm_enabled].
  - rewrite (performConversion_resume_after_normal _ _ _ _ _ _ E).
    split; [exact Hs | apply validateForm_enabled].
Qed.

Lemma step_form pg ev :
  sameOptions (object pg) -> enabledOnlyIfValid (object pg) ->
  sameOptions (object (step pg ev)) /\ enabledOnlyIfValid (object (step pg ev)).
Proof.
  intros Hs He. destruct ev as [ | | typed | i | i | r | n r]; simpl.
  - rewrite object_started. apply performConversion_form; assumption.
  - rewrite object_started. apply swapCurrencies_form; assumption.
  - split; [exact Hs | apply validateForm_enabled].
  - split; [ | apply validateForm_enabled].
    unfold sameOptions, validateForm, modify. simpl. rewrite choose_options. exact Hs.
  - split; [ | apply validateForm_enabled].
    unfold sameOptions, validateForm, modify. simpl. rewrite choose_options. exact Hs.
  - destruct (awaitsCurrencies (jobs pg)); [ | split; assumption].
    apply loadCurrencies_resume_form; assumption.
  - destruct (nth_error (jobs pg) n) as [[ | f t a] | ]; try (split; assumption).
    apply performConversion_resume_form; assumption.
Qed.

Lemma run_form events pg :
  sameOptions (object pg) -> enabledOnlyIfValid (object pg) ->
  sameOptions (object (run pg events)) /\ enabledOnlyIfValid (object (run pg events)).
Proof.
  unfold run. revert pg. induction events as [ | ev events IH]; intros pg Hs He; simpl.
  - split; assumption.
  - destruct (step_form pg ev Hs He). apply IH; assumption.
Qed.

(** *** Requests in flight and the recorded conversion were checked *)

Lemma removeJob_checked n l :
  Forall checkedJob l -> Forall checkedJob (removeJob n l).
Proof.
  intro H. revert n. induction H as [ | p l Hp Hl IH]; intro n; destruct n; simpl.
  - constructor.
  - constructor.
  - exact Hl.
  - constructor; [exact Hp | apply IH].
Qed.

Lemma removeCurrenciesJob_checked l :
  Forall checkedJob l -> Forall checkedJob (removeCurrenciesJob l).
Proof.
  intro H. induction H as [ | p l Hp Hl IH]; simpl.
  - constructor.
  - destruct p; [exact Hl | constructor; [exact Hp | exact IH]].
Qed.

Lemma started_performConversion_checked pg st :
  checkedSlot st -> Forall checkedJob (jobs pg) ->
  checkedSlot (object (started pg (performConversion st))) /\
  Forall checkedJob (jobs (started pg (performConversion st))).
Proof.
  intros Hslot Hjobs.
  destruct (performConversion_shape st) as [[d E] | [Hreq E]]; rewrite E; simpl.
  - split; assumption.
  - split; [exact Hslot | ].
    apply Forall_app. split; [exact Hjobs | ]. constructor; [exact Hreq | constructor].
Qed.

Lemma performConversion_resume_checked f t a r st :
  checkedRequest f t a -> checkedSlot st ->
  checkedSlot (snd (performConversion_resume f t a r st)).
Proof.
  intros Hreq Hslot.
  destruct (performConversion_try_shape st f t a r) as [[e E] | (d & rate & E)].
  - rewrite (performConversion_resume_after_throw _ _ _ _ _ _ E). exact Hslot.
  - rewrite (performConversion_resume_after_normal _ _ _ _ _ _ E). exact Hreq.
Qed.

Lemma step_checked pg ev :
  checkedSlot (object pg) -> Forall checkedJob (jobs pg) ->
  checkedSlot (object (step pg ev)) /\ Forall checkedJob (jobs (step pg ev)).
Proof.
  intros Hslot Hjobs. destruct ev as [ | | typed | i | i | r | n r]; simpl.
  - apply started_performConversion_checked; assumption.
  - destruct (swapCurrencies_shape (object pg)) as [[_ E] | (_ & _ & [E | E])];
      rewrite E.
    + split; assumption.
    + split; assumption.
    + apply started_performConversion_checked; assumption.
  - split; assumption.
  - split; assumption.
  - split; assumption.
  - destruct (awaitsCurrencies (jobs pg)); [ | split; assumption].
    split; [ | apply removeCurrenciesJob_checked, Hjobs].
    unfold checkedSlot. simpl. rewrite loadCurrencies_resume_keeps_slot. exact Hslot.
  - destruct (nth_error (jobs pg) n) as [[ | f t a] | ] eqn:En;
      try (split; assumption).
    split; [ | apply removeJob_checked, Hjobs].
    apply performConversion_resume_checked; [ | exact Hslot].
    apply (proj1 (Forall_forall _ _) Hjobs _ (nth_error_In _ _ En)).
Qed.

Lemma run_checked events pg :
  checkedSlot (object pg) -> Forall checkedJob (jobs pg) ->
  checkedSlot (object (run pg events)) /\ Forall checkedJob (jobs (run pg events)).
Proof.
  unfold run. revert pg. induction events as [ | ev events IH]; intros pg Hs Hj; simpl.
  - split; assumption.
  - destruct (step_checked pg ev Hs Hj). apply IH; assumption.
Qed.

End Invariants.

(** ** Properties of the running page *)

Section Running.

Context {rt : Host}.

(** X7: both selectors keep listing the same options through every
    run of handlers, once they do. *)
Theorem selectors_stay_alike (pg : page) (events : list event) :
  options (fromCurrency (object pg)) = options (toCurrency (object pg)) ->
  options (fromCurrency (object (run pg events)))
  = options (toCurrency (object (run pg events))).
Proof.
  intro Hs.
  assert (G : forall events pg, sameOptions (object pg) ->
                                sameOptions (object (run pg events))).
  { unfold run. induction events0 as [ | ev events0 IH]; intros pg0 H0; simpl.
    - exact H0.
    - apply IH. clear IH.
      destruct ev as [ | | typed | i | i | r | n r]; simpl.
      + rewrite object_started. unfold handleConversion.
        destruct (performConversion_shape (object pg0)) as [[d E] | [_ E]];
          rewrite E; exact H0.
      + rewrite object_started.
        destruct (swapCurrencies_shape (object pg0)) as [[_ E] | (_ & _ & [E | E])];
          rewrite E; try exact H0.
        destruct (performConversion_shape (exchanged (object pg0)))
          as [[d E'] | [_ E']]; rewrite E'; exact H0.
      + exact H0.
      + unfold sameOptions, validateForm, modify. simpl.
        rewrite choose_options. exact H0.
      + unfold sameOptions, validateForm, modify. simpl.
        rewrite choose_options. exact H0.
      + destruct (awaitsCurrencies (jobs pg0)); [ | exact H0].
        simpl object.
        destruct (loadCurrencies_resume_cases r (object pg0)) as [[e E] | [body E]];
          rewrite E; [exact H0 | ].
        destruct (withDefaults_frame (withOptions (set_currencies (object pg0) body)))
          as (_ & _ & _ & _ & _ & _ & Hf & Ht).
        unfold sameOptions, validateForm, modify. simpl snd.
        change (fromCurrency (set_convertBtn_disabled ?s ?b)) with (fromCurrency s).
        change (toCurrency (set_convertBtn_disabled ?s ?b)) with (toCurrency s).
        rewrite Hf, Ht. reflexivity.
      + destruct (nth_error (jobs pg0) n) as [[ | f t a] | ]; try exact H0.
        apply performConversion_resume_form, H0. }
  apply G, Hs.
Qed.

(** X8: on a page whose selectors list the same options and whose
    button is enabled only if the form is valid, every run of handlers
    leaves the button enabled only on a valid form. *)
Theorem button_enabled_only_on_valid_form (pg : page) (events : list event) :
  options (fromCurrency (object pg)) = options (toCurrency (object pg)) ->
  (convertBtn_disabled (object pg) = false -> isValid (object pg) = true) ->
  convertBtn_disabled (object (run pg events)) = false ->
  isValid (object (run pg events)) = true.
Proof.
  intros Hs He. apply (run_form events pg Hs He).
Qed.

(** X9: whatever happens on the loaded page, a conversion recorded in
    [lastConversion] has two different non-empty currencies and an
    amount above zero. *)
Theorem recorded_conversion_was_checked
    (fromSelect toSelect : HTMLSelect) (typed : string) (disabled : bool)
    (shown : display) (events : list event) (c : Conversion) :
  lastConversion
    (object (run (loaded fromSelect toSelect typed disabled shown) events))
  = Some c ->
  conv_fromCurrency c <> "" /\
  conv_toCurrency c <> "" /\
  conv_fromCurrency c <> conv_toCurrency c /\
  Number.gt (conv_amount c) Number.zero = true.
Proof.
  intro Hc.
  destruct (run_checked events (loaded fromSelect toSelect typed disabled shown))
    as [Hslot _].
  - exact I.
  - repeat constructor.
  - unfold checkedSlot in Hslot. rewrite Hc in Hslot. exact Hslot.
Qed.

Lemma swapCurrencies_selectors st :
  Select.value (fromCurrency st) <> "" ->
  Select.value (toCurrency st) <> "" ->
  fromCurrency (snd (swapCurrencies st)) = fromCurrency (exchanged st) /\
  toCurrency (snd (swapCurrencies st)) = toCurrency (exchanged st).
Proof.
  intros Hf Ht.
  destruct (swapCurrencies_shape st) as [[[E | E] _] | (_ & _ & [E | E])];
    try contradiction; rewrite E.
  - split; reflexivity.
  - destruct (performConversion_shape (exchanged st)) as [[d E'] | [_ E']];
      rewrite E'; split; reflexivity.
Qed.

(** X10: with both selections non-empty and the same options in both
    selectors, [swapCurrencies] exchanges the two selections, and a
    second [swapCurrencies] puts them back. *)
Theorem swap_twice_restores_selections (st : CurrencyConverter) :
  options (fromCurrency st) = options (toCurrency st) ->
  Select.value (fromCurrency st) <> "" ->
  Select.value (toCurrency st) <> "" ->
  let st1 := snd (swapCurrencies st) in
  let st2 := snd (swapCurrencies st1) in
  Select.value (fromCurrency st1) = Select.value (toCurrency st) /\
  Select.value (toCurrency st1) = Select.value (fromCurrency st) /\
  Select.value (fromCurrency st2) = Select.value (fromCurrency st) /\
  Select.value (toCurrency st2) = Select.value (toCurrency st).
Proof.
  intros Hs Hf Ht st1 st2.
  destruct (swapCurrencies_selectors st Hf Ht) as [F1 T1].
  destruct (exchanged_values st Hs Hf Ht) as [Vf Vt].
  assert (V1f : Select.value (fromCurrency st1) = Select.value (toCurrency st))
    by (unfold st1; rewrite F1; exact Vf).
  assert (V1t : Select.value (toCurrency st1) = Select.value (fromCurrency st))
    by (unfold st1; rewrite T1; exact Vt).
  assert (Hs1 : sameOptions st1)
    by (unfold sameOptions, st1; rewrite F1, T1; exact Hs).
  assert (Hf1 : Select.value (fromCurrency st1) <> "") by (rewrite V1f; exact Ht).
  assert (Ht1 : Select.value (toCurrency st1) <> "") by (rewrite V1t; exact Hf).
  destruct (swapCurrencies_selectors st1 Hf1 Ht1) as [F2 T2].
  destruct (exchanged_values st1 Hs1 Hf1 Ht1) as [V2f V2t].
  repeat split; try assumption.
  - unfold st2. rewrite F2, V2f. exact V1t.
  - unfold st2. rewrite T2, V2t. exact V1f.
Qed.

(** X11: whatever the answer to a conversion request, the resumed
    [performConversion] completes without throwing, leaves the form
    fields, the catalog and the list of requests as they were, and
    sets the button by a fresh validation of the form. *)
Theorem conversion_always_revalidates
    (st : CurrencyConverter) (f t : string) (a : Number.t)
    (r : fetch_outcome LatestBody) :
  exists st',
    performConversion_resume f t a r st = (Normal tt, st') /\
    convertBtn_disabled st' = negb (isValid st) /\
    fromCurrency st' = fromCurrency st /\
    toCurrency st' = toCurrency st /\
    amountInput st' = amountInput st /\
    currencies st' = currencies st /\
    fetched st' = fetched st.
Proof.
  destruct (performConversion_try_shape st f t a r) as [[e E] | (d & rate & E)].
  - rewrite (performConversion_resume_after_throw _ _ _ _ _ _ E).
    eexists. repeat split.
  - rewrite (performConversion_resume_after_normal _ _ _ _ _ _ E).
    eexists. repeat split.
Qed.

(** X12: no handler lets an error escape: [performConversion] up to
    its request, [swapCurrencies] and the resumed [loadCurrencies]
    complete normally on every object and every answer. *)
Theorem handlers_complete_normally
    (st : CurrencyConverter) (r : fetch_outcome CatalogBody) :
  (exists p st', performConversion st = (Normal p, st')) /\
  (exists p st', swapCurrencies st = (Normal p, st')) /\
  (exists st', loadCurrencies_resume r st = (Normal tt, st')).
Proof.
  repeat split.
  - apply performConversion_normal.
  - destruct (swapCurrencies_shape st) as [[_ E] | (_ & _ & [E | E])];
      rewrite E; eauto. apply performConversion_normal.
  - destruct (loadCurrencies_resume_cases r st) as [[e E] | [body E]];
      rewrite E; eauto.
Qed.

(** X13: when the answer has rates but none for the target currency,
    the converted amount is undefined: if the formatter takes the
    code, NaN is shown for amount and rate and a conversion with rate
    NaN is recorded; if it rejects the code, [toFixed] is missing on
    undefined, the failure message is shown, the TypeError is logged
    and [lastConversion] is left as it was. *)
Theorem missing_rate_member
    (st : CurrencyConverter) (f t : string) (a : Number.t)
    (status : Z) (data : LatestBody) (members : list (string * Number.t)) :
  ok status = true ->
  rates data = Some members ->
  lookup t members = None ->
  exists st',
    performConversion_resume f t a (Response status (Some data)) st
    = (Normal tt, st') /\
    match Intl_NumberFormat t with
    | Some format =>
        resultsContent st'
        = ConversionResult (format Number.NaN)
            (if Number.truthy a then a else parseFloat (amountInput st))
            f (format Number.NaN) (currencyName st t) /\
        lastConversion st'
        = Some {| conv_fromCurrency := f; conv_toCurrency := t;
                  conv_amount := a; conv_rate := Number.NaN |} /\
        console st' = console st
    | None =>
        resultsContent st'
        = ErrorMessage "Failed to convert currency. Please try again." /\
        lastConversion st' = lastConversion st /\
        console st' = (console st ++ [("Conversion error:", TypeError)])%list
    end.
Proof.
  intros Hok Hr Hl.
  unfold performConversion_resume, try_finally, try_catch, performConversion_try.
  rewrite Hok, Hr, Hl. change (negb true) with false. cbv beta iota.
  unfold bind at 1. unfold displayResult, bind, gets, lift, modify, formatCurrency.
  destruct (Intl_NumberFormat t) as [format | ]; simpl;
    eexists; repeat split.
Qed.

(** X14: an answer whose status is not a success status is logged
    once, with the status in the message, for a conversion as for the
    catalog; nothing else is logged. *)
Theorem bad_status_is_logged
    (st : CurrencyConverter) (f t : string) (a : Number.t) (status : Z)
    (latest : option LatestBody) (catalog : option CatalogBody) :
  ok status = false ->
  console (snd (performConversion_resume f t a (Response status latest) st))
  = (console st
       ++ [("Conversion error:",
            Error ("HTTP error! status: " ++ Str.ofZ status)%string)])%list
  /\ console (snd (loadCurrencies_resume (Response status catalog) st))
     = (console st
          ++ [("Error loading currencies:",
               Error ("HTTP error! status: " ++ Str.ofZ status)%string)])%list.
Proof.
  intro Hok. split.
  - rewrite (performConversion_resume_after_throw st f t a _ _
               (performConversion_try_status st f t a status latest Hok)).
    reflexivity.
  - unfold loadCurrencies_resume, try_catch, loadCurrencies_try.
    rewrite Hok. reflexivity.
Qed.

(** X15: with two different non-empty selections and a parsed amount
    above zero, [performConversion] sends exactly one request, for the
    parsed amount and the two codes, shows the converting message,
    disables the button and leaves [lastConversion] alone until the
    answer arrives. *)
Theorem valid_request_is_sent (st : CurrencyConverter) :
  Select.value (fromCurrency st) <> "" ->
  Select.value (toCurrency st) <> "" ->
  Select.value (fromCurrency st) <> Select.value (toCurrency st) ->
  Number.gt (parseFloat (amountInput st)) Number.zero = true ->
  exists st',
    performConversion st
    = (Normal (Some (AwaitLatest (Select.value (fromCurrency st))
                       (Select.value (toCurrency st))
                       (parseFloat (amountInput st)))), st') /\
    fetched st'
    = (fetched st
         ++ [(apiBaseUrl ++ "/latest?amount="
                ++ Number_toString (parseFloat (amountInput st))
                ++ "&from=" ++ Select.value (fromCurrency st)
                ++ "&to=" ++ Select.value (toCurrency st))%string])%list /\
    resultsContent st' = Spinner "Converting..." /\
    convertBtn_disabled st' = true /\
    lastConversion st' = lastConversion st.
Proof.
  intros Hf Ht Hne Hpos.
  assert (Hpre : precondition st = true).
  { unfold precondition. apply truthy_nonempty in Hf, Ht.
    rewrite Hf, Ht, Hpos. reflexivity. }
  rewrite (performConversion_request st Hpre Hne).
  eexists. repeat split.
Qed.

End Running.

(** ** The further properties on the sample page *)

Module Checks.

Import Sample.

Lemma sample_comparator_asymmetric a b :
  (localeCompare (Host := host) a b <? 0) = true ->
  (localeCompare (Host := host) b a <? 0) = false.
Proof.
  simpl. rewrite (String.compare_antisym a b).
  destruct (String.compare b a); simpl; intro E; try discriminate; reflexivity.
Qed.

Lemma sortEntries_sorted_witness :
  Sorted (inOrder (rt := host)) (sortEntries (rt := host) catalog).
Proof.
  apply (sortEntries_sorted (rt := host) catalog).
  exact sample_comparator_asymmetric.
Defined.

Lemma loaded_selectors_offer_the_catalog_witness :
  Select.offers "EUR"
    (fromCurrency
       (snd (loadCurrencies_resume (rt := host) (Response 200 (Some catalog)) unloaded)))
  = true /\
  Select.offers "EUR"
    (toCurrency
       (snd (loadCurrencies_resume (rt := host) (Response 200 (Some catalog)) unloaded)))
  = true.
Proof.
  destruct (loaded_selectors_offer_the_catalog (rt := host) unloaded 200 catalog "EUR")
    as [Hf Ht]; [reflexivity | ].
  split; [apply Hf | apply Ht]; right; simpl; auto.
Defined.

Lemma loaded_defaults_witness :
  Select.value
    (fromCurrency
       (snd (loadCurrencies_resume (rt := host) (Response 200 (Some catalog)) unloaded)))
  = "USD" /\
  Select.value
    (toCurrency
       (snd (loadCurrencies_resume (rt := host) (Response 200 (Some catalog)) unloaded)))
  = "EUR".
Proof.
  destruct (loaded_defaults (rt := host) unloaded 200 catalog)
    as (Hf & Ht & _); [reflexivity | ].
  split; [exact Hf | exact Ht].
Defined.

Lemma loading_message_stays_witness :
  resultsContent
    (object (run (rt := host) (loaded emptySelect emptySelect "" true (Markup ""))
               [CurrenciesArrive (Response 200 (Some catalog))]))
  = Spinner "Loading currencies...".
Proof.
  apply (loading_message_stays (rt := host)). reflexivity.
Defined.

Lemma selectors_stay_alike_witness :
  options
    (fromCurrency
       (object (run (rt := host) (loaded emptySelect emptySelect "" true (Markup ""))
                  session)))
  = options
      (toCurrency
         (object (run (rt := host) (loaded emptySelect emptySelect "" true (Markup ""))
                    session))).
Proof.
  apply (selectors_stay_alike (rt := host)). reflexivity.
Defined.

Lemma button_enabled_only_on_valid_form_witness :
  isValid
    (object (run (rt := host) (loaded emptySelect emptySelect "" true (Markup ""))
               session))
  = true.
Proof.
  apply (button_enabled_only_on_valid_form (rt := host));
    [reflexivity | intro E; discriminate E | vm_compute; reflexivity].
Defined.

Lemma recorded_conversion_was_checked_witness :
  "USD" <> "" /\ "EUR" <> "" /\ "USD" <> "EUR" /\
  Number.gt (parseFloat "10") Number.zero = true.
Proof.
  apply (recorded_conversion_was_checked (rt := host)
           emptySelect emptySelect "" true (Markup "") session
           {| conv_fromCurrency := "USD"; conv_toCurrency := "EUR";
              conv_amount := parseFloat "10";
              conv_rate := Number.div (parseFloat "9.2") (parseFloat "10") |}).
  vm_compute. reflexivity.
Defined.

Lemma swap_twice_restores_selections_witness :
  Select.value (fromCurrency (snd (swapCurrencies (rt := host) fresh))) = "EUR" /\
  Select.value (toCurrency (snd (swapCurrencies (rt := host) fresh))) = "USD" /\
  Select.value
    (fromCurrency
       (snd (swapCurrencies (rt := host) (snd (swapCurrencies (rt := host) fresh)))))
  = "USD" /\
  Select.value
    (toCurrency
       (snd (swapCurrencies (rt := host) (snd (swapCurrencies (rt := host) fresh)))))
  = "EUR".
Proof.
  apply (swap_twice_restores_selections (rt := host) fresh);
    [reflexivity | discriminate | discriminate].
Defined.

Lemma missing_rate_member_witness :
  exists st',
    performConversion_resume (rt := host) "USD" "EUR" (parseFloat "10")
      (Response 200 (Some {| rates := Some [("GBP", parseFloat "7.9")] |}))
      (object submitted)
    = (Normal tt, st') /\
    lastConversion st'
    = Some {| conv_fromCurrency := "USD"; conv_toCurrency := "EUR";
              conv_amount := parseFloat "10"; conv_rate := Number.NaN |}.
Proof.
  destruct (missing_rate_member (rt := host) (object submitted) "USD" "EUR"
              (parseFloat "10") 200 {| rates := Some [("GBP", parseFloat "7.9")] |}
              [("GBP", parseFloat "7.9")])
    as (st' & E & H); [reflexivity | reflexivity | reflexivity | ].
  exists st'. split; [exact E | ].
  change (Intl_NumberFormat (Host := host) "EUR")
    with (Some (fun x => "EUR " ++ toFixed (rt := plain) x 2)) in H.
  cbv beta iota in H. apply H.
Defined.

Lemma bad_status_is_logged_witness :
  console
    (snd (performConversion_resume (rt := host) "USD" "EUR" (parseFloat "10")
            (Response 503 None) (object submitted)))
  = [("Conversion error:", Error "HTTP error! status: 503")].
Proof.
  destruct (bad_status_is_logged (rt := host) (object submitted) "USD" "EUR"
              (parseFloat "10") 503 None None) as [H _]; [reflexivity | ].
  rewrite H. vm_compute. reflexivity.
Defined.

Lemma valid_request_is_sent_witness :
  exists st',
    performConversion (rt := host) fresh
    = (Normal (Some (AwaitLatest "USD" "EUR" (parseFloat "10"))), st') /\
    fetched st'
    = ["https://api.frankfurter.app/currencies";
       "https://api.frankfurter.app/latest?amount=10&from=USD&to=EUR"] /\
    convertBtn_disabled st' = true.
Proof.
  destruct (valid_request_is_sent (rt := host) fresh)
    as (st' & E & F & _ & D & _);
    [discriminate | discriminate | discriminate | vm_compute; reflexivity | ].
  exists st'. repeat split; assumption.
Defined.

End Checks.
